(** * etl_io: IPEDS, O*NET and crosswalk handlers

    A shallow embedding of [src/etl_io.py] and the properties its
    specification states about it.

    The Python code is modelled with explicit state passing: every method
    is a function from a state (what has been printed, which queries were
    sent, the contents of the list objects the caller shares with the
    callee) to an outcome and a new state.  An outcome is either a
    returned value or a raised exception; a raised exception keeps the
    state changes made before it, as in Python. *)

From Stdlib Require Import ZArith String Ascii List Bool Lia QArith.
From stdpp Require Import base option list strings gmap pretty.

Local Open Scope Z_scope.

(** ** Python primitives *)

Module Py.

(** The exceptions the modelled code can meet. *)
Inductive exn : Type :=
  | AttributeError (msg : string)
  | TypeError (msg : string)
  | KeyError (key : string)
  | ValueError (msg : string)
  | IndexError (msg : string)
  | DatabaseError (msg : string)
  | UnboundLocalError (msg : string)
  | ConnectionError (msg : string)
  | BadZipFile (msg : string).

(** [str(e)], what [print(e)] shows. *)
Definition exn_text (e : exn) : string :=
  match e with
  | AttributeError m | TypeError m | ValueError m | IndexError m
  | DatabaseError m | UnboundLocalError m | ConnectionError m
  | BadZipFile m => m
  | KeyError k => "'" +:+ k +:+ "'"
  end.

(** Scalar Python values as they occur in table cells and in arguments.
    A float is carried by the text [str] gives for it, which is the only
    way the code below looks at one. *)
Inductive pyval : Type :=
  | PNone
  | PBool (b : bool)
  | PInt (z : Z)
  | PFloat (repr : string)
  | PStr (s : string).

#[global] Instance pyval_eq_dec : EqDecision pyval.
Proof. solve_decision. Defined.

Definition pyval_enc (v : pyval) : unit + bool + Z + string + string :=
  match v with
  | PNone => inl (inl (inl (inl tt)))
  | PBool b => inl (inl (inl (inr b)))
  | PInt z => inl (inl (inr z))
  | PFloat r => inl (inr r)
  | PStr s => inr s
  end.

Definition pyval_dec (x : unit + bool + Z + string + string) : pyval :=
  match x with
  | inl (inl (inl (inl _))) => PNone
  | inl (inl (inl (inr b))) => PBool b
  | inl (inl (inr z)) => PInt z
  | inl (inr r) => PFloat r
  | inr s => PStr s
  end.

#[global] Instance pyval_countable : Countable pyval.
Proof.
  refine (inj_countable' pyval_enc pyval_dec _).
  intros []; reflexivity.
Defined.

(** [str(v)]. *)
Definition str (v : pyval) : string :=
  match v with
  | PNone => "None"
  | PBool true => "True"
  | PBool false => "False"
  | PInt z => pretty z
  | PFloat r => r
  | PStr s => s
  end.

Definition is_digit (c : ascii) : bool :=
  (48 <=? nat_of_ascii c)%nat && (nat_of_ascii c <=? 57)%nat.

Definition digit_val (c : ascii) : Z := Z.of_nat (nat_of_ascii c) - 48.

(** ASCII white space, what [str.split()] and [int] skip. *)
Definition is_space (c : ascii) : bool :=
  let n := nat_of_ascii c in
  (n =? 32)%nat || ((9 <=? n)%nat && (n <=? 13)%nat).

Fixpoint all_digits (s : string) : bool :=
  match s with
  | EmptyString => true
  | String c s' => is_digit c && all_digits s'
  end.

Fixpoint lstrip (s : string) : string :=
  match s with
  | EmptyString => EmptyString
  | String c s' => if is_space c then lstrip s' else s
  end.

Fixpoint rstrip (s : string) : string :=
  match s with
  | EmptyString => EmptyString
  | String c s' =>
      match rstrip s' with
      | EmptyString => if is_space c then EmptyString else String c EmptyString
      | r => String c r
      end
  end.

Definition strip (s : string) : string := rstrip (lstrip s).

(** The digits of an integer literal: at least one digit, single
    underscores allowed between digits. *)
Fixpoint int_digits (acc : Z) (after_digit : bool) (s : string) : option Z :=
  match s with
  | EmptyString => if after_digit then Some acc else None
  | String c s' =>
      if is_digit c then int_digits (10 * acc + digit_val c) true s'
      else if Ascii.eqb c "_" then
        (if after_digit then int_digits acc false s' else None)
      else None
  end.

(** [int(s)] for a string [s]; [None] stands for the [ValueError]. *)
Definition int_of_str (s : string) : option Z :=
  match strip s with
  | String "-" d => Z.opp <$> int_digits 0 false d
  | String "+" d => int_digits 0 false d
  | d => int_digits 0 false d
  end.

(** [s.split(sep)] for a non-empty separator: [skip] counts the characters
    of a separator just matched that are still to be passed over, [cur] is
    the piece read so far. *)
Fixpoint split_go (sep : string) (skip : nat) (cur : string) (s : string)
  : list string :=
  match s with
  | EmptyString => [cur]
  | String c s' =>
      match skip with
      | S k => split_go sep k cur s'
      | O =>
          if String.prefix sep s
          then cur :: split_go sep (String.length sep - 1) EmptyString s'
          else split_go sep O (cur +:+ String c EmptyString) s'
      end
  end.

Definition split (sep s : string) : list string := split_go sep 0 EmptyString s.

(** [s.split()]: pieces between runs of white space, none of them empty. *)
Fixpoint split_ws_go (cur : string) (s : string) : list string :=
  match s with
  | EmptyString => match cur with EmptyString => [] | _ => [cur] end
  | String c s' =>
      if is_space c
      then match cur with
           | EmptyString => split_ws_go EmptyString s'
           | _ => cur :: split_ws_go EmptyString s'
           end
      else split_ws_go (cur +:+ String c EmptyString) s'
  end.

Definition split_ws (s : string) : list string := split_ws_go EmptyString s.

(** [sep.join(l)]. *)
Fixpoint join (sep : string) (l : list string) : string :=
  match l with
  | [] => EmptyString
  | [x] => x
  | x :: rest => x +:+ sep +:+ join sep rest
  end.

(** ['{:>02d}'.format(n)]: right-aligned in a field of width 2 filled
    with ['0']; a text of two characters or more is left as it is. *)
Definition format_02d (n : Z) : string :=
  let s := pretty n in
  String.concat EmptyString (replicate (2 - String.length s) "0"%string) +:+ s.

(** The double quote character, as a string. *)
Definition dq : string := String (ascii_of_nat 34) EmptyString.

(** Substring test, [sub in s]. *)
Fixpoint contains (sub s : string) : bool :=
  String.prefix sub s ||
  match s with
  | EmptyString => false
  | String _ s' => contains sub s'
  end.

End Py.

Import Py.

(** ** Outcomes and state passing *)

Inductive outcome (A : Type) : Type :=
  | Ret (a : A)
  | Raise (e : exn).
Arguments Ret {A} a.
Arguments Raise {A} e.

(** A computation over a state [S]: the state it leaves is kept also when
    it raises. *)
Definition M (S A : Type) : Type := S -> outcome A * S.

#[global] Instance M_ret {S} : MRet (M S) := fun A a s => (Ret a, s).

#[global] Instance M_bind {S} : MBind (M S) := fun A B f m s =>
  match m s with
  | (Ret a, s') => f a s'
  | (Raise e, s') => (Raise e, s')
  end.

Definition raise {S A} (e : exn) : M S A := fun s => (Raise e, s).

(** [try: m except Exception as e: h e]. *)
Definition try_except {S A} (m : M S A) (h : exn -> M S A) : M S A := fun s =>
  match m s with
  | (Ret a, s') => (Ret a, s')
  | (Raise e, s') => h e s'
  end.

(** An effect-free step that may raise. *)
Definition lift {S A} (o : outcome A) : M S A := fun s => (o, s).

Definition obind {A B} (o : outcome A) (f : A -> outcome B) : outcome B :=
  match o with
  | Ret a => f a
  | Raise e => Raise e
  end.

(** ** Data frames *)

Module Frame.

(** A table: column labels and rows of cells, one cell per column. *)
Record frame : Type := Build { columns : list string; rows : list (list pyval) }.

#[global] Instance frame_eq_dec : EqDecision frame.
Proof. solve_decision. Defined.

(** [len(df)]. *)
Definition len (df : frame) : nat := length (rows df).

(** Position of the first column labelled [c]. *)
Fixpoint col_index (c : string) (cols : list string) : option nat :=
  match cols with
  | [] => None
  | x :: rest => if decide (x = c) then Some O else S <$> col_index c rest
  end.

(** The cell of a row at a position; a row too short reads as null. *)
Definition cell (i : nat) (r : list pyval) : pyval := default PNone (r !! i).

(** [df[c]]: the cells of a column, [KeyError] when there is none. *)
Definition getcol (df : frame) (c : string) : outcome (list pyval) :=
  match col_index c (columns df) with
  | Some i => Ret (cell i <$> rows df)
  | None => Raise (KeyError c)
  end.

(** [df[[c1, ..., cn]]]. *)
Fixpoint col_indices (cs : list string) (cols : list string) : outcome (list nat) :=
  match cs with
  | [] => Ret []
  | c :: rest =>
      match col_index c cols with
      | Some i => obind (col_indices rest cols) (fun ix => Ret (i :: ix))
      | None => Raise (KeyError c)
      end
  end.

Definition project (df : frame) (cs : list string) : outcome frame :=
  obind (col_indices cs (columns df)) (fun ix =>
    Ret (Build cs ((fun r => (fun i => cell i r) <$> ix) <$> rows df))).

(** [df[mask]] for a row predicate. *)
Definition select_rows (p : list pyval -> bool) (df : frame) : frame :=
  Build (columns df) (List.filter p (rows df)).

Fixpoint remove_nth {A} (i : nat) (l : list A) : list A :=
  match l, i with
  | [], _ => []
  | _ :: rest, O => rest
  | x :: rest, S k => x :: remove_nth k rest
  end.

(** [df.drop(c, axis=1)]. *)
Definition drop (df : frame) (c : string) : outcome frame :=
  match col_index c (columns df) with
  | Some i => Ret (Build (remove_nth i (columns df)) (remove_nth i <$> rows df))
  | None => Raise (KeyError ("['" +:+ c +:+ "'] not found in axis"))
  end.

(** [df[c] = cells]: overwrite the column, or append it when new. *)
Definition set_cell (i : nat) (v : pyval) (r : list pyval) : list pyval :=
  if decide (i < length r)%nat then <[i:=v]> r else r ++ [v].

Definition setcol (df : frame) (c : string) (cells : list pyval) : frame :=
  let i := default (length (columns df)) (col_index c (columns df)) in
  Build (match col_index c (columns df) with
         | Some _ => columns df
         | None => columns df ++ [c]
         end)
        (zip_with (set_cell i) cells (rows df)).

(** [df.rename(columns=m)]: a label that is a key of [m] is replaced. *)
Definition rename (m : gmap string string) (df : frame) : frame :=
  Build ((fun c => default c (m !! c)) <$> columns df) (rows df).

(** [s.replace(d)] on the cells of one column: every cell that is a key of
    [d] becomes its value, all at once (a replaced cell is not looked up
    again). *)
Definition replace_cell (d : gmap pyval pyval) (v : pyval) : pyval :=
  default v (d !! v).

(** [df.replace(meta)] with a dictionary of dictionaries: the column
    labelled [c] is replaced through [meta[c]]; columns that are no key of
    [meta] are left as they are. *)
Fixpoint replace_row (meta : gmap string (gmap pyval pyval))
    (cols : list string) (r : list pyval) : list pyval :=
  match cols, r with
  | c :: cols', v :: r' =>
      match meta !! c with
      | Some d => replace_cell d v
      | None => v
      end :: replace_row meta cols' r'
  | _, _ => r
  end.

Definition replace (meta : gmap string (gmap pyval pyval)) (df : frame) : frame :=
  Build (columns df) (replace_row meta (columns df) <$> rows df).

(** Nulls: [None] and NaN. *)
Definition is_null (v : pyval) : bool :=
  match v with PNone => true | _ => false end.

(** [df.dropna()]: rows with a null cell are dropped. *)
Definition dropna (df : frame) : frame :=
  select_rows (fun r => negb (existsb is_null r)) df.

(** [df.drop_duplicates()]: the first of equal rows is kept. *)
Fixpoint dedup (seen : list (list pyval)) (l : list (list pyval)) : list (list pyval) :=
  match l with
  | [] => []
  | r :: rest =>
      if decide (r ∈ seen) then dedup seen rest else r :: dedup (r :: seen) rest
  end.

Definition drop_duplicates (df : frame) : frame :=
  Build (columns df) (dedup [] (rows df)).

End Frame.

Import Frame.

(** ** Grouping and joining *)

Module Relational.

(** The order [groupby] sorts its keys in: numbers by value, strings by
    code point; cells of different kinds are ordered by kind. *)
Definition kind_rank (v : pyval) : Z :=
  match v with
  | PNone => 0 | PBool _ => 1 | PInt _ => 2 | PFloat _ => 3 | PStr _ => 4
  end.

Definition pyval_compare (a b : pyval) : comparison :=
  match a, b with
  | PInt x, PInt y => Z.compare x y
  | PStr x, PStr y => String.compare x y
  | PFloat x, PFloat y => String.compare x y
  | PBool x, PBool y => Bool.compare x y
  | _, _ => Z.compare (kind_rank a) (kind_rank b)
  end.

Fixpoint key_compare (a b : list pyval) : comparison :=
  match a, b with
  | [], [] => Eq
  | [], _ :: _ => Lt
  | _ :: _, [] => Gt
  | x :: a', y :: b' =>
      match pyval_compare x y with
      | Eq => key_compare a' b'
      | c => c
      end
  end.

Definition key_leb (a b : list pyval) : bool :=
  match key_compare a b with Gt => false | _ => true end.

Fixpoint insert_sorted (k : list pyval) (l : list (list pyval)) : list (list pyval) :=
  match l with
  | [] => [k]
  | x :: rest => if key_leb k x then k :: l else x :: insert_sorted k rest
  end.

Definition sort_keys (l : list (list pyval)) : list (list pyval) :=
  foldr insert_sorted [] l.

Definition key_of (ix : list nat) (r : list pyval) : list pyval :=
  (fun i => cell i r) <$> ix.

(** The group keys of a frame: the distinct key tuples without a null,
    in ascending order. *)
Definition group_keys (ix : list nat) (rs : list (list pyval)) : list (list pyval) :=
  sort_keys (dedup [] (List.filter (fun k => negb (existsb is_null k)) (key_of ix <$> rs))).

Definition group_rows (ix : list nat) (k : list pyval) (rs : list (list pyval))
  : list (list pyval) :=
  List.filter (fun r => bool_decide (key_of ix r = k)) rs.

(** Sum of the cells of a value column: nulls are skipped; the value
    columns of the award tables hold integers. *)
Fixpoint sum_cells (l : list pyval) : outcome Z :=
  match l with
  | [] => Ret 0
  | PInt z :: rest => obind (sum_cells rest) (fun t => Ret (z + t))
  | PNone :: rest => sum_cells rest
  | v :: _ => Raise (TypeError ("unsupported operand type(s) for +: " +:+ str v))
  end.

Fixpoint sum_columns (js : list nat) (rs : list (list pyval)) : outcome (list pyval) :=
  match js with
  | [] => Ret []
  | j :: rest =>
      obind (sum_cells ((cell j) <$> rs)) (fun t =>
      obind (sum_columns rest rs) (fun ts => Ret (PInt t :: ts)))
  end.

Fixpoint sum_groups (ix js : list nat) (ks : list (list pyval)) (rs : list (list pyval))
  : outcome (list (list pyval)) :=
  match ks with
  | [] => Ret []
  | k :: rest =>
      obind (sum_columns js (group_rows ix k rs)) (fun sums =>
      obind (sum_groups ix js rest rs) (fun out => Ret ((k ++ sums) :: out)))
  end.

(** [df.groupby(keys).sum().reset_index()]: one row per group key, the
    key cells first, then the sum of every other column. *)
Definition groupby_sum (df : frame) (keys : list string) : outcome frame :=
  obind (col_indices keys (columns df)) (fun ix =>
    let js := List.filter (fun j => bool_decide (j ∉ ix)) (seq 0 (length (columns df))) in
    obind (sum_groups ix js (group_keys ix (rows df)) (rows df)) (fun out =>
      Ret (Build (keys ++ ((fun j => default EmptyString (columns df !! j)) <$> js)) out))).

(** [pd.DataFrame(df.groupby(keys)[c].count()).reset_index()]: per group
    the number of non-null cells of column [c]. *)
Definition groupby_count (df : frame) (keys : list string) (c : string) : outcome frame :=
  obind (col_indices keys (columns df)) (fun ix =>
    match col_index c (columns df) with
    | None => Raise (KeyError ("Column not found: " +:+ c))
    | Some j =>
        Ret (Build (keys ++ [c])
               ((fun k => k ++ [PInt (Z.of_nat (length (List.filter
                                   (fun r => negb (is_null (cell j r)))
                                   (group_rows ix k (rows df)))))])
                  <$> group_keys ix (rows df)))
    end).

(** The join kinds modelled: the default ['inner'], and ['left']. *)
Inductive join_kind : Type := Inner | LeftJoin.

Definition count_label (c : string) (cols : list string) : nat :=
  length (List.filter (fun x => bool_decide (x = c)) cols).

(** Labels of the joined frame: the key once, and a label carried by both
    sides gets the suffixes [_x] and [_y]. *)
Definition merged_columns (on : string) (lc rc : list string) (ri : nat) : list string :=
  ((fun c => if bool_decide (c ≠ on ∧ c ∈ rc) then c +:+ "_x" else c) <$> lc)
  ++ ((fun c => if bool_decide (c ∈ lc) then c +:+ "_y" else c) <$> remove_nth ri rc).

Definition join_row (how : join_kind) (li ri : nat) (width : nat)
    (rrows : list (list pyval)) (l : list pyval) : list (list pyval) :=
  let hits := List.filter (fun r => bool_decide (cell ri r = cell li l)) rrows in
  match hits, how with
  | [], LeftJoin => [l ++ replicate (width - 1) PNone]
  | _, _ => (fun r => l ++ remove_nth ri r) <$> hits
  end.

(** [left.merge(right, on=c, how=how)]: rows are paired on equal key
    cells in the order of the left rows, and for one left row in the
    order of the right rows.  A missing key label is a [KeyError], a key
    label that occurs twice on one side a [ValueError]. *)
Definition merge (how : join_kind) (left right : frame) (on : string) : outcome frame :=
  match col_index on (columns left), col_index on (columns right) with
  | Some li, Some ri =>
      if bool_decide (count_label on (columns left) = 1%nat
                      ∧ count_label on (columns right) = 1%nat)
      then Ret (Build (merged_columns on (columns left) (columns right) ri)
                  (concat (join_row how li ri (length (columns right)) (rows right)
                             <$> rows left)))
      else Raise (ValueError ("The column label '" +:+ on +:+ "' is not unique."))
  | _, _ => Raise (KeyError on)
  end.

End Relational.

Import Relational.

(** ** The IPEDS handler *)

Module IPEDS.

(** *** The backing store

    The queries the handler sends have the shape
    [SELECT v1,..,vn FROM t WHERE c1 AND .. AND ck], each condition being
    [col IN (l1,..,lm)] or [col = l] over literals written by [str].  A
    query is kept in this parsed shape; an empty condition list stands
    for the empty [where] text. *)
Inductive cond : Type :=
  | CIn (col : string) (lits : list string)
  | CEq (col : string) (lit : string).

Record query : Type := Query {
  q_vars : list string;
  q_table : string;
  q_where : list cond
}.

(** A number literal: digits, with an optional minus sign. *)
Definition sql_number (lit : string) : option Z :=
  match lit with
  | String "-" d =>
      if all_digits d then Z.opp <$> int_digits 0 false d else None
  | d => if all_digits d then int_digits 0 false d else None
  end.

Definition cell_in (i : nat) (nums : list Z) (r : list pyval) : bool :=
  match cell i r with
  | PInt v => bool_decide (v ∈ nums)
  | _ => false
  end.

(** The rows a condition keeps.  An unknown column, an empty [IN ()] list
    and a literal that is no number are errors of the engine. *)
Definition eval_cond (cols : list string) (c : cond) : outcome (list pyval -> bool) :=
  match c with
  | CIn col lits =>
      match col_index col cols, mapM sql_number lits with
      | Some i, Some (z :: zs) => Ret (cell_in i (z :: zs))
      | _, _ => Raise (DatabaseError ("cannot evaluate IN on " +:+ col))
      end
  | CEq col lit =>
      match col_index col cols, sql_number lit with
      | Some i, Some z => Ret (cell_in i [z])
      | _, _ => Raise (DatabaseError ("cannot evaluate = on " +:+ col))
      end
  end.

Fixpoint eval_where (cols : list string) (cs : list cond) : outcome (list pyval -> bool) :=
  match cs with
  | [] => Ret (fun _ => true)
  | c :: rest =>
      obind (eval_cond cols c) (fun p =>
      obind (eval_where cols rest) (fun q => Ret (fun r => p r && q r)))
  end.

(** The engine: the rows of the table that satisfy every condition,
    projected on the variables asked for ([*] keeps all columns). *)
Definition exec_query (db : gmap string frame) (q : query) : outcome frame :=
  match db !! q_table q with
  | None => Raise (DatabaseError ("no such table: " +:+ q_table q))
  | Some t =>
      obind (eval_where (columns t) (q_where q)) (fun p =>
        if decide (q_vars q = ["*"%string]) then Ret (select_rows p t)
        else match project (select_rows p t) (q_vars q) with
             | Ret f => Ret f
             | Raise _ => Raise (DatabaseError ("no such column in " +:+ q_table q))
             end)
  end.

(** *** State *)

(** What a call can change: the queries sent over the connection and the
    lines printed (both oldest first), and the contents of the list
    objects that callers pass in, by address. *)
Record world : Type := World {
  queries : list query;
  stdout : list string;
  heap : gmap nat (list pyval)
}.

(** The handler after [connect]: the open connection ([None] before
    [connect]), the decode dictionary and the variable titles per table
    ([None] when [get_varnames] failed and returned nothing). *)
Record handler : Type := Handler {
  conn : option (gmap string frame);
  metadata : gmap string (gmap pyval pyval);
  varnames : option (gmap string (gmap string string))
}.

(** Values a method hands back where it may return more than a table. *)
Inductive pyobj : Type :=
  | ONone
  | OTuple0
  | OInt (z : Z)
  | OFrame (f : frame).

Definition print (msg : string) : M world unit := fun w =>
  (Ret tt, World (queries w) (stdout w ++ [msg]) (heap w)).

(** [pd.read_sql_query(sql, self.conn)]. *)
Definition read_sql_query (self : handler) (q : query) : M world frame := fun w =>
  match conn self with
  | None => (Raise (AttributeError "'NoneType' object has no attribute 'cursor'"), w)
  | Some db => (exec_query db q, World (queries w ++ [q]) (stdout w) (heap w))
  end.

(** [cipcode[i]] and [cipcode[i] = v] on the list object at an address. *)
Definition list_contents (l : nat) (w : world) : list pyval := default [] (heap w !! l).

Definition list_get (l : nat) (i : nat) : M world pyval := fun w =>
  match list_contents l w !! i with
  | Some v => (Ret v, w)
  | None => (Raise (IndexError "list index out of range"), w)
  end.

Definition list_set (l : nat) (i : nat) (v : pyval) : M world unit := fun w =>
  if decide (i < length (list_contents l w))%nat
  then (Ret tt, World (queries w) (stdout w) (<[l := <[i := v]> (list_contents l w)]> (heap w)))
  else (Raise (IndexError "list assignment index out of range"), w).

(** *** Methods *)

(** [clean], lines 149-154. *)
Definition clean (self : handler) (df : frame) (name : string) (replace rename : bool)
  : outcome frame :=
  let df := if replace then Frame.replace (metadata self) df else df in
  if rename then
    match varnames self with
    | None => Raise (TypeError "'NoneType' object is not subscriptable")
    | Some vn =>
        match vn !! name with
        | None => Raise (KeyError name)
        | Some m => Ret (Frame.rename m df)
        end
    end
  else Ret df.

(** [select], lines 156-201, for calls that pass no [sql] text (none of
    the methods below passes one). *)
Definition select (self : handler) (name : string) (variables : list string)
    (where_ : list cond) (replace rename : bool) : M world (option frame) :=
  try_except
    (if decide (name = EmptyString) then mret None
     else
       table ← read_sql_query self (Query variables name where_);
       table ← (if replace || rename
                then lift (clean self table name replace rename)
                else mret table);
       mret (Some table))
    (fun e => print (exn_text e);; mret None).

(** A geography filter: one code or a sequence of codes. *)
Inductive geo : Type :=
  | One (z : Z)
  | Many (l : list Z).

(** Lines 245-267: a sequence gives [col IN (a,b,..)], a single code, on
    which the iteration fails, [col IN (a)]. *)
Definition geo_where (col : string) (g : option geo) : list cond :=
  match g with
  | None => []
  | Some (Many l) => [CIn col ((fun i => str (PInt i)) <$> l)]
  | Some (One z) => [CIn col [str (PInt z)]]
  end.

(** [a + b] on two cells of string columns. *)
Definition add_str (a b : pyval) : outcome pyval :=
  match a, b with
  | PStr x, PStr y => Ret (PStr (x +:+ y))
  | PNone, _ | _, PNone => Ret PNone
  | _, _ => Raise (TypeError "can only concatenate str")
  end.

Fixpoint county_names (names abbrs : list pyval) : outcome (list pyval) :=
  match names, abbrs with
  | n :: ns, a :: abs =>
      obind (add_str n (PStr ", ")) (fun na =>
      obind (add_str na a) (fun v =>
      obind (county_names ns abs) (fun rest => Ret (v :: rest))))
  | _, _ => Ret []
  end.

(** Lines 272-274, on what [select] returned. *)
Definition decode_geography (utd : option frame) : outcome frame :=
  match utd with
  | None => Raise (TypeError "'NoneType' object is not subscriptable")
  | Some t =>
      obind (getcol t "STABBR") (fun stabbr =>
      let t := setcol t "FIPS" stabbr in
      obind (getcol t "COUNTYNM") (fun countynm =>
      obind (getcol t "STABBR") (fun stabbr =>
      obind (county_names countynm stabbr) (fun cells =>
      Ret (setcol t "COUNTYCD" cells)))))
  end.

Definition of_table (t : option frame) : pyobj :=
  match t with
  | None => ONone
  | Some f => OFrame f
  end.

(** [get_unitid], lines 221-276. *)
Definition get_unitid (self : handler) (state_fips county_fips zipcode : option geo)
    (clean_geography : bool) : M world pyobj :=
  match state_fips, county_fips, zipcode with
  | None, None, None => mret OTuple0
  | _, _, _ =>
      let where_ := geo_where "FIPS" state_fips ++ geo_where "COUNTYCD" county_fips
                    ++ geo_where "ZIP" zipcode in
      utd ← select self "HD2019"
              ["UNITID"; "FIPS"; "STABBR"; "COUNTYCD"; "COUNTYNM"; "ZIP"]%string
              where_ false false;
      if clean_geography
      then utd ← lift (decode_geography utd); mret (OFrame utd)
      else mret (of_table utd)
  end.

(** [len(o)], [o[c]] and [o[[c1, .., cn]]] on what [get_unitid] or
    [school_query] returned. *)
Definition obj_len (o : pyobj) : outcome nat :=
  match o with
  | OFrame f => Ret (len f)
  | OTuple0 => Ret O
  | ONone => Raise (TypeError "object of type 'NoneType' has no len()")
  | OInt _ => Raise (TypeError "object of type 'int' has no len()")
  end.

Definition obj_col (o : pyobj) (c : string) : outcome (list pyval) :=
  match o with
  | OFrame f => getcol f c
  | ONone => Raise (TypeError "'NoneType' object is not subscriptable")
  | OTuple0 => Raise (TypeError "tuple indices must be integers or slices, not str")
  | OInt _ => Raise (TypeError "'int' object is not subscriptable")
  end.

Definition obj_project (o : pyobj) (cs : list string) : outcome frame :=
  match o with
  | OFrame f => project f cs
  | ONone => Raise (TypeError "'NoneType' object is not subscriptable")
  | OTuple0 => Raise (TypeError "tuple indices must be integers or slices, not list")
  | OInt _ => Raise (TypeError "'int' object is not subscriptable")
  end.

(** Lines 359-370: the value columns asked for by [how]. *)
Definition how_variables (how : string) : option (list string) :=
  if decide (how = "total") then Some ["CTOTALT"]
  else if decide (how = "race") then
    Some ["CAIANT"; "CASIAT"; "CBKAAT"; "CHISPT"; "CNHPIT"; "CUNKNT"; "C2MORT"; "CWHITT"]
  else if decide (how = "sex") then Some ["CTOTALM"; "CTOTALW"]
  else if decide (how = "race_sex") then
    Some ["CAIANM"; "CASIAM"; "CBKAAM"; "CHISPM"; "CNHPIM"; "CUNKNM"; "C2MORM"; "CWHITM";
          "CAIANF"; "CASIAF"; "CBKAAF"; "CHISPF"; "CNHPIF"; "CUNKNF"; "C2MORF"; "CWHITF"]
  else None.

(** Lines 376-381, one pass of the loop body on the element [c]: the
    text before the first dot is read as an integer and written in a
    field of two, the text between the first and the second dot, when
    there is a dot, is put back after a dot. *)
Definition normalize_code (c : pyval) : outcome string :=
  match split "." (str c) with
  | ip :: rest =>
      match int_of_str ip with
      | None => Raise (ValueError ("invalid literal for int() with base 10: '" +:+ ip +:+ "'"))
      | Some n =>
          Ret (format_02d n +:+ match rest with
                                | f :: _ => "." +:+ f
                                | [] => EmptyString
                                end)
      end
  | [] => Raise (IndexError "list index out of range")
  end.

(** Lines 375-381: [for i in range(len(cipcode))], here [n] passes from
    index [i] on; each pass overwrites element [i] of the caller's list. *)
Fixpoint normalize_loop (l : nat) (i : nat) (n : nat) : M world unit :=
  match n with
  | O => mret tt
  | S n' =>
      c ← list_get l i;
      code ← lift (normalize_code c);
      list_set l i (PStr code);;
      normalize_loop l (S i) n'
  end.

(** [awd[awd['CIPCODE'].isin(codes)]]. *)
Definition isin_rows (codes : list pyval) (awd : option frame) : outcome frame :=
  match awd with
  | None => Raise (TypeError "'NoneType' object is not subscriptable")
  | Some t =>
      match col_index "CIPCODE" (columns t) with
      | None => Raise (KeyError "CIPCODE")
      | Some i => Ret (select_rows (fun r => bool_decide (cell i r ∈ codes)) t)
      end
  end.

(** [school_query] from line 356 on: [unitid] is the list of ids in
    force, [geog] the geography columns when they were bound above.
    [cipcode] is the address of the caller's list, [None] when the
    argument is left to its default, the empty list. *)
Definition school_query_rows (self : handler) (cipcode : option nat) (majornum : Z)
    (unitid : list pyval) (how : string) (keep_geography : option string)
    (geog : option frame) : M world (option frame) :=
  let where_ :=
    CEq "MAJORNUM" (str (PInt majornum))
    :: (if decide (0 < length unitid)%nat then [CIn "UNITID" (str <$> unitid)] else []) in
  match how_variables how with
  | None =>
      print ("{} not a valid option for " +:+ dq +:+ "how" +:+ dq
             +:+ ". valid options: total, race, sex, race_sex");;
      mret None
  | Some variables =>
      awd ← select self "C2019_A" (["UNITID"; "CIPCODE"]%string ++ variables) where_ false false;
      awd ← match cipcode with
            | None => mret awd
            | Some l =>
                given ← (fun w => (Ret (list_contents l w), w));
                if decide (given = []) then mret awd
                else
                  normalize_loop l 0 (length given);;
                  codes ← (fun w => (Ret (list_contents l w), w));
                  t ← lift (isin_rows codes awd);
                  mret (Some t)
            end;
      match keep_geography with
      | None => mret awd
      | Some _ =>
          match awd, geog with
          | None, _ => raise (AttributeError "'NoneType' object has no attribute 'merge'")
          | Some _, None =>
              raise (UnboundLocalError "local variable 'geog' referenced before assignment")
          | Some t, Some g => t ← lift (merge Inner t g "UNITID"); mret (Some t)
          end
      end
  end.

(** The [cip_level] argument: an integer or a string. *)
Inductive level : Type :=
  | LInt (z : Z)
  | LStr (s : string).

#[global] Instance level_eq_dec : EqDecision level.
Proof. solve_decision. Defined.

(** [school_query], lines 278-388.  [cip_level], [rename] and [label] are
    accepted and not used. *)
Definition school_query (self : handler) (state_fips county_fips zipcode : option geo)
    (cip_level : level) (cipcode : option nat) (majornum : Z) (unitid : list pyval)
    (how : string) (rename label : bool) (keep_geography : option string)
    (clean_geography : bool) : M world (option frame) :=
  match state_fips, county_fips, zipcode with
  | None, None, None =>
      school_query_rows self cipcode majornum unitid how keep_geography None
  | _, _, _ =>
      utd ← get_unitid self state_fips county_fips zipcode clean_geography;
      n ← lift (obj_len utd);
      if decide (n = O) then print "no colleges found in search area";; mret None
      else
        geog ← match keep_geography with
               | None => mret (Some None)
               | Some kg =>
                   try_except
                     (g ← lift (obj_project utd ["UNITID"; kg]); mret (Some (Some g)))
                     (fun _ =>
                        print "{} not valid for keep_geography. valid options: FIPS, COUNTYCD, ZIP";;
                        mret None)
               end;
        match geog with
        | None => mret None
        | Some geog =>
            unitid ← lift (obj_col utd "UNITID");
            school_query_rows self cipcode majornum unitid how keep_geography geog
        end
  end.

(** [[len(i)==n for i in df['CIPCODE']]]: [len] of a cell that is no
    string is a [TypeError]. *)
Fixpoint length_mask (n : nat) (codes : list pyval) : outcome (list bool) :=
  match codes with
  | [] => Ret []
  | PStr s :: rest =>
      obind (length_mask n rest) (fun m => Ret (bool_decide (String.length s = n) :: m))
  | v :: _ => Raise (TypeError ("object of type '" +:+ str v +:+ "' has no len()"))
  end.

(** [df[mask]] for a list of booleans. *)
Fixpoint mask_rows (mask : list bool) (rs : list (list pyval)) : list (list pyval) :=
  match mask, rs with
  | b :: mask', r :: rs' => if b then r :: mask_rows mask' rs' else mask_rows mask' rs'
  | _, _ => []
  end.

(** [df[[len(i)==n for i in df['CIPCODE']]]]. *)
Definition by_length (n : nat) (df : frame) : outcome frame :=
  obind (getcol df "CIPCODE") (fun codes =>
  obind (length_mask n codes) (fun mask =>
  Ret (Build (columns df) (mask_rows mask (rows df))))).

(** [df[df['CIPCODE']=='99']]. *)
Definition total_rows (df : frame) : outcome frame :=
  match col_index "CIPCODE" (columns df) with
  | None => Raise (KeyError "CIPCODE")
  | Some i => Ret (select_rows (fun r => bool_decide (cell i r = PStr "99")) df)
  end.

(** Lines 467-479 and 544-556: the rows kept for a [cip_level], [None]
    for a level that is none of 6, 4, 2, ['all'], ['total']. *)
Definition level_rows (cip_level : level) (df : frame) : option (outcome frame) :=
  if decide (cip_level = LInt 6) then Some (by_length 7 df)
  else if decide (cip_level = LInt 4) then Some (by_length 5 df)
  else if decide (cip_level = LInt 2) then Some (by_length 2 df)
  else if decide (cip_level = LStr "all") then Some (Ret df)
  else if decide (cip_level = LStr "total") then Some (total_rows df)
  else None.

Definition invalid_level : string :=
  "{} not a valid option for " +:+ dq +:+ "cip_level" +:+ dq
  +:+ ". valid options: 6,4,2,all,total".

(** Lines 464-465 and 541-542: the [CIPNAME] column. *)
Definition add_label (self : handler) (df : frame) : outcome frame :=
  obind (getcol df "CIPCODE") (fun codes =>
    match metadata self !! "CIPCODE"%string with
    | None => Raise (KeyError "CIPCODE")
    | Some d => Ret (setcol df "CIPNAME" (replace_cell d <$> codes))
    end).

Definition group_keys_for (keep_geography : option string) : list string :=
  match keep_geography with
  | None => ["CIPCODE"%string]
  | Some kg => [kg; "CIPCODE"%string]
  end.

(** [awards], lines 445-465: the table summed per classification code. *)
Definition awards_grouped (self : handler) (state_fips county_fips zipcode : option geo)
    (cip_level : level) (cipcode : option nat) (majornum : Z) (unitid : list pyval)
    (how : string) (rename label : bool) (keep_geography : option string)
    (clean_geography : bool) : M world frame :=
  awd ← school_query self state_fips county_fips zipcode cip_level cipcode majornum
          unitid how rename label keep_geography clean_geography;
  awd ← match awd with
        | None => raise (AttributeError "'NoneType' object has no attribute 'drop'")
        | Some t => lift (drop t "UNITID")
        end;
  awd ← lift (groupby_sum awd (group_keys_for keep_geography));
  if label then lift (add_label self awd) else mret awd.

(** [awards], lines 390-479. *)
Definition awards (self : handler) (state_fips county_fips zipcode : option geo)
    (cip_level : level) (cipcode : option nat) (majornum : Z) (unitid : list pyval)
    (how : string) (rename label : bool) (keep_geography : option string)
    (clean_geography : bool) : M world (option frame) :=
  awd ← awards_grouped self state_fips county_fips zipcode cip_level cipcode majornum
          unitid how rename label keep_geography clean_geography;
  match level_rows cip_level awd with
  | Some kept =>
      kept ← lift kept;
      out ← lift (clean self kept "C2019_A" false rename);
      mret (Some out)
  | None => print invalid_level;; mret None
  end.

(** [programs], lines 524-542: the table of program counts. *)
Definition programs_grouped (self : handler) (state_fips county_fips zipcode : option geo)
    (cip_level : level) (cipcode : option nat) (unitid : list pyval)
    (rename label : bool) (keep_geography : option string)
    (clean_geography : bool) : M world frame :=
  prog ← school_query self state_fips county_fips zipcode cip_level cipcode 1
           unitid "total" rename label keep_geography clean_geography;
  prog ← match prog with
         | None => raise (AttributeError "'NoneType' object has no attribute 'groupby'")
         | Some t => lift (groupby_count t (group_keys_for keep_geography) "UNITID")
         end;
  let prog := Frame.rename {[ "UNITID"%string := "PROG_COUNT"%string ]} prog in
  if label then lift (add_label self prog) else mret prog.

(** [programs], lines 481-556. *)
Definition programs (self : handler) (state_fips county_fips zipcode : option geo)
    (cip_level : level) (cipcode : option nat) (unitid : list pyval)
    (rename label : bool) (keep_geography : option string)
    (clean_geography : bool) : M world (option frame) :=
  prog ← programs_grouped self state_fips county_fips zipcode cip_level cipcode
           unitid rename label keep_geography clean_geography;
  match level_rows cip_level prog with
  | Some kept => kept ← lift kept; mret (Some kept)
  | None => print invalid_level;; mret None
  end.

(** [schools], lines 558-605. *)
Definition schools (self : handler) (state_fips county_fips zipcode : option geo)
    (unitid : list pyval) (keep_geography : option string) (clean_geography : bool)
  : M world pyobj :=
  found ← school_query self state_fips county_fips zipcode (LStr "total") None 1
            unitid "total" true false keep_geography clean_geography;
  match keep_geography with
  | None =>
      try_except
        (ids ← lift (obj_col (of_table found) "UNITID");
         mret (OInt (Z.of_nat (length ids))))
        (fun e => print (exn_text e);; mret ONone)
  | Some kg =>
      match found with
      | None => raise (AttributeError "'NoneType' object has no attribute 'groupby'")
      | Some t => counts ← lift (groupby_count t [kg] "UNITID"); mret (OFrame counts)
      end
  end.

End IPEDS.

(** ** The O*NET handler *)

Module ONET.

(** [float(s)] for a decimal text: sign, digits, at most one point.  The
    value is kept as the exact rational; on texts of a few digits, as
    version numbers are, the order of the floats is the order of these
    rationals.  Exponent forms, [inf] and [nan] are outside the model and
    read as the [ValueError] of a malformed text. *)
Definition decimal_of (ip fp : string) : option Q :=
  if all_digits ip && all_digits fp && negb (bool_decide (ip = EmptyString ∧ fp = EmptyString))
  then
    n ← int_digits 0 true (ip +:+ fp);
    Some (Qmake n (Z.to_pos (10 ^ Z.of_nat (String.length fp))))
  else None.

Definition unsigned_float (s : string) : option Q :=
  match split "." s with
  | [ip] => decimal_of ip EmptyString
  | [ip; fp] => decimal_of ip fp
  | _ => None
  end.

Definition float_of_str (s : string) : option Q :=
  match strip s with
  | String "-" d => Qopp <$> unsigned_float d
  | String "+" d => unsigned_float d
  | d => unsigned_float d
  end.

(** What the parser keeps of the release page: the text of the first
    [h2] heading, when there is one, and the [href] of every anchor (an
    anchor may have none). *)
Record page : Type := Page {
  first_h2 : option string;
  hrefs : list (option string)
}.

(** The remote site: the release page, and for an archive address the
    names of the entries of the archive served ([Ret None]: a status
    other than ok).  Either request may fail with an exception. *)
Record remote : Type := Remote {
  listing : outcome page;
  archive : string -> outcome (option (list string))
}.

(** The handler's bookkeeping and its surroundings: the archives in the
    target directory with the names of their entries, the other entries
    of that directory, the addresses requested and the lines printed. *)
Record world : Type := World {
  current : option string;
  version : Q;
  current_path : option string;
  zips : gmap string (list string);
  extracted : list string;
  requested : list string;
  stdout : list string
}.

Definition target : string := "D:/data/ONET_database".

Definition print (msg : string) : M world unit := fun w =>
  (Ret tt, World (current w) (version w) (current_path w) (zips w) (extracted w)
             (requested w) (stdout w ++ [msg])).

(** [requests.get(link)] on an archive address. *)
Definition get_archive (net : remote) (link : string) : M world (option (list string)) :=
  fun w =>
    (archive net link,
     World (current w) (version w) (current_path w) (zips w) (extracted w)
       (requested w ++ [link]) (stdout w)).

(** [requests.get] on the release page. *)
Definition get_listing (net : remote) (link : string) : M world page := fun w =>
  (listing net,
   World (current w) (version w) (current_path w) (zips w) (extracted w)
     (requested w ++ [link]) (stdout w)).

(** Writing the downloaded archive under its name. *)
Definition write_zip (name : string) (entries : list string) : M world unit := fun w =>
  (Ret tt, World (current w) (version w) (current_path w) (<[name := entries]> (zips w))
             (extracted w) (requested w) (stdout w)).

(** [zipfile.ZipFile(file_name).extractall(target)]. *)
Definition extractall (name : string) : M world unit := fun w =>
  match zips w !! name with
  | None => (Raise (ValueError ("No such file or directory: " +:+ name)), w)
  | Some entries =>
      (Ret tt, World (current w) (version w) (current_path w) (zips w)
                 (extracted w ++ List.filter (fun e => bool_decide (e ∉ extracted w)) entries)
                 (requested w) (stdout w))
  end.

(** [os.listdir(self.target)]. *)
Definition listdir (w : world) : list string :=
  (fst <$> map_to_list (zips w)) ++ extracted w.

(** [l[-1]] on a list of pieces. *)
Definition last_piece (l : list string) : string := default EmptyString (last l).

(** [download_data], lines 679-708: the archive is written under the last
    piece of its address and unpacked into the target directory; any
    exception is printed. *)
Definition download_data (net : remote) (link : string) : M world unit :=
  let file_name := last_piece (split "/" link) in
  try_except
    (r ← get_archive net link;
     match r with
     | Some entries => write_zip file_name entries
     | None => mret tt
     end;;
     extractall file_name)
    (fun e => print (exn_text e);; mret tt).

(** The names the class [ONETHandler] defines, attributes and methods. *)
Definition class_names : list string :=
  ["target"; "current"; "version"; "current_path"; "index"; "__init__";
   "download_data"; "get_new_database"; "get_table"; "quant_view"; "qual_view"]%string.

(** [self.<name>(arg)] for a text argument: a name the class does not
    define is an [AttributeError]; of the names it defines, the call the
    code makes with one text is [download_data]. *)
Definition call_method (net : remote) (name : string) (arg : string) : M world unit :=
  if decide (name ∈ class_names) then
    if decide (name = "download_data") then download_data net arg
    else raise (TypeError ("'" +:+ name +:+ "' cannot be called with one text"))
  else raise (AttributeError ("'ONETHandler' object has no attribute '" +:+ name +:+ "'")).

(** [max(l)] on texts. *)
Definition max_str (l : list string) : outcome string :=
  match l with
  | [] => Raise (ValueError "max() arg is an empty sequence")
  | x :: rest => Ret (foldl (fun m y => if String.ltb m y then y else m) x rest)
  end.

(** [s.strip('.zip')]: the characters [.], [z], [i], [p] are removed from
    both ends. *)
Definition zip_char (c : ascii) : bool :=
  bool_decide (c ∈ ["."; "z"; "i"; "p"]%char).

Fixpoint lstrip_zip (s : string) : string :=
  match s with
  | EmptyString => EmptyString
  | String c s' => if zip_char c then lstrip_zip s' else s
  end.

Fixpoint rstrip_zip (s : string) : string :=
  match s with
  | EmptyString => EmptyString
  | String c s' =>
      match rstrip_zip s' with
      | EmptyString => if zip_char c then EmptyString else String c EmptyString
      | r => String c r
      end
  end.

(** Line 725: the version number in the first heading. *)
Definition heading_version (p : page) : outcome Q :=
  match first_h2 p with
  | None => Raise (AttributeError "'NoneType' object has no attribute 'text'")
  | Some text =>
      match split "O*NET " text with
      | _ :: after :: _ =>
          match split_ws after with
          | v :: _ =>
              match float_of_str v with
              | Some q => Ret q
              | None => Raise (ValueError ("could not convert string to float: '" +:+ v +:+ "'"))
              end
          | [] => Raise (IndexError "list index out of range")
          end
      | _ => Raise (IndexError "list index out of range")
      end
  end.

(** Line 730: the [href] of the first anchor whose [href] contains
    [text.zip]. *)
Fixpoint text_zip_links (l : list (option string)) : outcome (list string) :=
  match l with
  | [] => Ret []
  | None :: _ => Raise (TypeError "argument of type 'NoneType' is not iterable")
  | Some h :: rest =>
      obind (text_zip_links rest) (fun out =>
        Ret (if contains "text.zip" h then h :: out else out))
  end.

Definition archive_link (p : page) : outcome string :=
  obind (text_zip_links (hrefs p)) (fun l =>
    match l with
    | h :: _ => Ret h
    | [] => Raise (IndexError "list index out of range")
    end).

Definition set_bookkeeping (cur : string) (v : Q) (path : string) : M world unit := fun w =>
  (Ret tt, World (Some cur) v (Some path) (zips w) (extracted w) (requested w) (stdout w)).

(** [get_new_database], lines 710-736.  Line 732 calls the method under
    the name written there, [donwload_data]. *)
Definition get_new_database (net : remote) : M world unit :=
  let url := "https://www.onetcenter.org"%string in
  soup ← get_listing net (url +:+ "/db_releases.html");
  new_version ← lift (heading_version soup);
  local ← (fun w => (Ret w, w));
  if Qle_bool new_version (version local) then
    print ("database up to date, version "
           +:+ match current local with Some c => c | None => "None" end)
  else
    href ← lift (archive_link soup);
    let file := url +:+ href in
    call_method net "donwload_data" file;;
    w ← (fun w => (Ret w, w));
    cur ← lift (max_str (List.filter (fun i => negb (contains ".zip" i)) (listdir w)));
    set_bookkeeping cur new_version (rstrip_zip (lstrip_zip (last_piece (split "/" file)))).

End ONET.

(** ** The crosswalk *)

Module Rosetta.

(** One element of a list literal: an integer, a decimal number (kept by
    its text, which for a literal in shortest form is the [str] of the
    float it denotes), or a quoted text. *)
Definition literal_scalar (s : string) : outcome pyval :=
  let s := strip s in
  match s with
  | String q rest =>
      if bool_decide (q = "'"%char ∨ q = ascii_of_nat 34) then
        match String.rev rest with
        | String q' body =>
            if bool_decide (q' = q) then Ret (PStr (String.rev body))
            else Raise (ValueError "malformed node or string")
        | EmptyString => Raise (ValueError "malformed node or string")
        end
      else
        match int_of_str s, ONET.float_of_str s with
        | Some z, _ => Ret (PInt z)
        | None, Some _ => Ret (PFloat s)
        | None, None => Raise (ValueError "malformed node or string")
        end
  | EmptyString => Raise (ValueError "malformed node or string")
  end.

Fixpoint literal_scalars (l : list string) : outcome (list pyval) :=
  match l with
  | [] => Ret []
  | s :: rest =>
      obind (literal_scalar s) (fun v =>
      obind (literal_scalars rest) (fun vs => Ret (v :: vs)))
  end.

(** [ast.literal_eval] on a crosswalk cell, for the literals such a cell
    carries: a bracketed list of scalars separated by commas (quoted texts
    without commas).  A cell that is no text is a [ValueError]. *)
Definition literal_eval (v : pyval) : outcome (list pyval) :=
  match v with
  | PStr s =>
      match strip s with
      | String "[" rest =>
          match String.rev rest with
          | String "]" body =>
              let inner := String.rev body in
              if bool_decide (strip inner = EmptyString) then Ret []
              else literal_scalars (split "," inner)
          | _ => Raise (ValueError "malformed node or string")
          end
      | _ => Raise (ValueError "malformed node or string")
      end
  | _ => Raise (ValueError "malformed node or string")
  end.

(** Lines 927-932: the rows [{other: row[other], 'cip_2020': c}], one per
    member [c] of the list in the row's [cip_2020] cell.  [io] and [ic]
    are the positions of the two cells in the row. *)
Fixpoint explode (io ic : nat) (rs : list (list pyval)) : outcome (list (list pyval)) :=
  match rs with
  | [] => Ret []
  | r :: rest =>
      obind (literal_eval (cell ic r)) (fun cips =>
      obind (explode io ic rest) (fun out =>
        Ret (((fun c => [cell io r; c]) <$> cips) ++ out)))
  end.

(** Lines 924-934.  The frame built from no rows has no columns. *)
Definition expand (temp : frame) (left right : string) : outcome frame :=
  if bool_decide (left = "cip_2020"%string ∨ right = "cip_2020"%string) then
    let other := if bool_decide (left ≠ "cip_2020"%string) then left else right in
    if decide (left = right) then
      match rows temp with
      | [] => Ret (Build [] [])
      | _ :: _ => Raise (ValueError "malformed node or string")
      end
    else
      let io := if bool_decide (left ≠ "cip_2020"%string) then O else 1%nat in
      obind (explode io (1 - io) (rows temp)) (fun h =>
        match h with
        | [] => Ret (Build [] [])
        | _ :: _ => Ret (Build [other; "cip_2020"%string] h)
        end)
  else Ret temp.

(** [translate], lines 898-941.  [stone] is the crosswalk read at
    construction ([None] when reading failed), [data_2] is [None] for
    the default, the empty list. *)
Definition translate (stone : option frame) (data : frame) (left right : string)
    (data_2 : option frame) (how : join_kind) : outcome frame :=
  match stone with
  | None => Raise (TypeError "'NoneType' object is not subscriptable")
  | Some st =>
      obind (project st [left; right]) (fun pairs =>
      let temp := dropna (drop_duplicates pairs) in
      obind (expand temp left right) (fun temp =>
      obind (merge how data temp left) (fun data =>
        match data_2 with
        | Some d2 => if decide (0 < len d2)%nat then merge how data d2 right else Ret data
        | None => Ret data
        end)))
  end.

End Rosetta.

(** ** What the specification says, in its own terms *)

Module Spec.

Definition digit_char (d : Z) : ascii := ascii_of_nat (48 + Z.to_nat d).

(** An integer of 0 to 99 written with exactly two digits. *)
Definition two_digits (n : Z) : string :=
  String (digit_char (n / 10)) (String (digit_char (n mod 10)) EmptyString).




Definition other_position (left : string) : nat :=
  if bool_decide (left ≠ "cip_2020"%string) then O else 1%nat.


(** The number of distinct institution ids in a column of ids. *)
Definition distinct_count (ids : list pyval) : nat := length (remove_dups ids).

(** The institutions, among those resolved, that the award table has a
    row for. *)
Definition institutions_present (resolved : list pyval) (awards_table : frame) : nat :=
  distinct_count
    (List.filter (fun v => bool_decide (v ∈ resolved))
       (match getcol awards_table "UNITID" with Ret ids => ids | Raise _ => [] end)).

(** Between the states [w] and [w'] the list object at [l] was
    overwritten by the normalised codes of its elements, and no other
    list object changed. *)
Definition overwritten (l : nat) (w w' : IPEDS.world) : Prop :=
  ∃ codes,
    Forall2 (fun c code => IPEDS.normalize_code c = Ret code) (IPEDS.list_contents l w) codes
    ∧ IPEDS.list_contents l w' = PStr <$> codes
    ∧ forall l', l' ≠ l -> IPEDS.heap w' !! l' = IPEDS.heap w !! l'.




End Spec.

(** ** Example data *)

Module Examples.

Import IPEDS.

(** A directory of two institutions, and an award table in which the
    first institution reports three rows for its first major. *)
Definition hd2019 : frame :=
  Build ["UNITID"; "FIPS"; "STABBR"; "COUNTYCD"; "COUNTYNM"; "ZIP"]%string
    [[PInt 100; PInt 1; PStr "AL"; PInt 1001; PStr "Autauga County"; PStr "36003"];
     [PInt 200; PInt 2; PStr "AK"; PInt 2020; PStr "Anchorage"; PStr "99501"]].

Definition c2019_a : frame :=
  Build ["UNITID"; "CIPCODE"; "MAJORNUM"; "CTOTALT"; "CTOTALM"; "CTOTALW"]%string
    [[PInt 100; PStr "01.0101"; PInt 1; PInt 3; PInt 1; PInt 2];
     [PInt 100; PStr "01"; PInt 1; PInt 3; PInt 1; PInt 2];
     [PInt 100; PStr "99"; PInt 1; PInt 3; PInt 1; PInt 2];
     [PInt 200; PStr "01.0101"; PInt 1; PInt 5; PInt 1; PInt 4];
     [PInt 200; PStr "99"; PInt 2; PInt 4; PInt 2; PInt 2]].

Definition database : gmap string frame :=
  {[ "HD2019"%string := hd2019; "C2019_A"%string := c2019_a ]}.

Definition labels : gmap string (gmap pyval pyval) :=
  {[ "CIPCODE"%string := {[ PStr "01.0101" := PStr "Agricultural Business" ]} ]}.

Definition titles : gmap string (gmap string string) :=
  {[ "C2019_A"%string :=
       {[ "CIPCODE"%string := "CIP Code"%string;
          "CTOTALT"%string := "Grand total"%string ]} ]}.

Definition ipeds : handler := Handler (Some database) labels (Some titles).

Definition fresh : world := World [] [] ∅.

(** A caller's code list at address 0. *)
Definition with_codes (cs : list pyval) : world := World [] [] {[ O := cs ]}.

(** Titles that chain: the title of [A] is the name of the variable [B]. *)
Definition chained : handler :=
  Handler None ∅ (Some {[ "T"%string := {[ "A"%string := "B"%string; "B"%string := "C"%string ]} ]}).

(** The crosswalk row and the data of the specification's example. *)
Definition stone : frame :=
  Build ["other"; "cip_2020"]%string [[PStr "X"; PStr "[11.01, 11.02]"]].

Definition data : frame :=
  Build ["other"; "wage"]%string [[PStr "X"; PInt 5]].

(** A release page that announces version 28.0, and a site that serves
    its archive; a handler whose local copy is version 25.0. *)
Definition release_page : ONET.page :=
  ONET.Page (Some "O*NET 28.0 Database"%string)
    [Some "index.html"%string; Some "/dl_files/database/db_28_0_text.zip"%string].

Definition site : ONET.remote :=
  ONET.Remote (Ret release_page) (fun _ => Ret (Some ["db_28_0_text"%string])).

Definition local_25 : ONET.world :=
  ONET.World (Some "db_25_0_text"%string) (25 # 1)
    (Some "D:/data/ONET_database/db_25_0_text"%string) ∅ ["db_25_0_text"%string] [] [].

End Examples.

(** ** Loading the IPEDS dictionaries *)

Module Catalog.

Import IPEDS.

(** [s.unique()]: the values of a column in the order of their first
    appearance. *)
Fixpoint uniq (seen : list pyval) (l : list pyval) : list pyval :=
  match l with
  | [] => []
  | v :: rest =>
      if decide (v ∈ seen) then uniq seen rest else v :: uniq (v :: seen) rest
  end.

(** [df[df[c] == v]]: a comparison with a null is false on every row. *)
Definition rows_equal (df : frame) (c : string) (v : pyval) : outcome frame :=
  match col_index c (columns df) with
  | None => Raise (KeyError c)
  | Some i =>
      Ret (select_rows (fun r => negb (is_null v) && bool_decide (cell i r = v)) df)
  end.

(** A dictionary filled from rows of two cells, key and value, in their
    order: a later row overwrites an earlier one with the same key. *)
Definition pairs_dict (rs : list (list pyval)) : gmap pyval pyval :=
  foldl (fun d r => <[cell 0 r := cell 1 r]> d) ∅ rs.

(** Lines 76-79: the titles of the variables of one table. *)
Definition table_titles (values : frame) (tab : pyval) : outcome (gmap pyval pyval) :=
  obind (rows_equal values "TableName" tab) (fun sub =>
  obind (project sub ["varName"; "varTitle"]%string) (fun pairs =>
  Ret (pairs_dict (rows (drop_duplicates pairs))))).

Fixpoint load_titles (values : frame) (tabs : list pyval)
    (varnames : gmap pyval (gmap pyval pyval)) : outcome (gmap pyval (gmap pyval pyval)) :=
  match tabs with
  | [] => Ret varnames
  | tab :: rest =>
      obind (table_titles values tab) (fun d =>
      load_titles values rest (<[tab := d]> varnames))
  end.

(** [get_varnames], lines 55-83. *)
Definition get_varnames (self : handler) (name : string)
  : M world (option (gmap pyval (gmap pyval pyval))) :=
  try_except
    (values ← read_sql_query self (Query ["TableName"; "varName"; "varTitle"]%string name []);
     tabs ← lift (getcol values "TableName");
     varnames ← lift (load_titles values (uniq [] tabs) ∅);
     mret (Some varnames))
    (fun e => print (exn_text e);; mret None).

(** Lines 107-108: the codes and labels of one variable. *)
Definition variable_labels (values : frame) (var : pyval) : outcome (gmap pyval pyval) :=
  obind (rows_equal values "varName" var) (fun sub =>
  obind (project sub ["Codevalue"; "valueLabel"]%string) (fun pairs =>
  Ret (pairs_dict (rows pairs)))).

Fixpoint load_labels (values : frame) (vars : list pyval)
    (meta : gmap pyval (gmap pyval pyval)) : outcome (gmap pyval (gmap pyval pyval)) :=
  match vars with
  | [] => Ret meta
  | var :: rest =>
      obind (variable_labels values var) (fun d =>
      load_labels values rest (<[var := d]> meta))
  end.

(** [get_metadata], lines 85-112. *)
Definition get_metadata (self : handler) (name : string)
  : M world (option (gmap pyval (gmap pyval pyval))) :=
  try_except
    (values ← read_sql_query self (Query ["*"%string] name []);
     vars ← lift (getcol values "varName");
     meta ← lift (load_labels values (uniq [] vars) ∅);
     mret (Some meta))
    (fun e => print (exn_text e);; mret None).

(** [get_tables], lines 36-53. *)
Definition get_tables (self : handler) (name : string) : M world (option frame) :=
  try_except
    (tables ← read_sql_query self (Query ["TableName"; "TableTitle"]%string name []);
     mret (Some tables))
    (fun e => print (exn_text e);; mret None).

(** The last row of a list that passes a test. *)
Fixpoint last_match (p : list pyval -> bool) (rs : list (list pyval))
  : option (list pyval) :=
  match rs with
  | [] => None
  | r :: rest =>
      match last_match p rest with
      | Some x => Some x
      | None => if p r then Some r else None
      end
  end.

(** What a loaded dictionary of dictionaries answers for a pair of keys. *)
Definition lookup2 (d : gmap pyval (gmap pyval pyval)) (k1 k2 : pyval) : option pyval :=
  d !! k1 ≫= fun inner => inner !! k2.

(** The table the query of [get_varnames] returns, and the titles it
    holds for one table name: the pairs (variable, title) of the rows of
    that table, each pair once, a later pair overwriting an earlier one
    of the same variable. *)
Definition titles_frame (rows3 : list (list pyval)) : frame :=
  Build ["TableName"; "varName"; "varTitle"]%string rows3.

Definition titles_dict (rows3 : list (list pyval)) (tab : pyval) : gmap pyval pyval :=
  pairs_dict
    (dedup [] ((fun r => [cell 1 r; cell 2 r])
                 <$> List.filter (fun r => negb (is_null tab) && bool_decide (cell 0 r = tab))
                       rows3)).

End Catalog.

(** ** The O*NET tables *)

Module ONETData.

Import ONET.

(** The class attribute [index], lines 613-651. *)
Definition index_entries : list (string * string) :=
  [("ab_to_wa", "Abilities to Work Activities.txt");
   ("ab_to_wc", "Abilities to Work Context.txt");
   ("ab", "Abilities.txt");
   ("alt_title", "Alternate Titles.txt");
   ("career_change", "Career Changers Matrix.txt");
   ("career_start", "Career Starters Matrix.txt");
   ("cont_ref", "Content Model Reference.txt");
   ("dwa_ref", "DWA Reference.txt");
   ("ed_cat", "Education, Training, and Experience Categories.txt");
   ("ed", "Education, Training, and Experience.txt");
   ("et", "Emerging Tasks.txt");
   ("in", "Interests.txt");
   ("iwa_ref", "IWA Reference.txt");
   ("jz_ref", "Job Zone Reference.txt");
   ("jz", "Job Zones.txt");
   ("kn", "Knowledge.txt");
   ("lsa", "Level Scale Anchors.txt");
   ("occ", "Occupation Data.txt");
   ("occ_level", "Occupation Level Metadata.txt");
   ("sample_title", "Sample of Reported Titles.txt");
   ("sc_ref", "Scales Reference.txt");
   ("sk_to_wa", "Skills to Work Activities.txt");
   ("sk_to_wc", "Skills to Work Context.txt");
   ("sk", "Skills.txt");
   ("survey_loc", "Survey Booklet Locations.txt");
   ("tsk_cat", "Task Categories.txt");
   ("tsk_rate", "Task Ratings.txt");
   ("tsk_state", "Task Statements.txt");
   ("tsk_to_dwa", "Tasks to DWAs.txt");
   ("tech", "Technology Skills.txt");
   ("tool", "Tools Used.txt");
   ("unspsc", "UNSPSC Reference.txt");
   ("wa", "Work Activities.txt");
   ("wc_cat", "Work Context Categories.txt");
   ("wc", "Work Context.txt");
   ("ws", "Work Styles.txt");
   ("wv", "Work Values.txt")]%string.

Definition index : gmap string string := list_to_map index_entries.

(** [str(self.index)]. *)
Definition index_text : string :=
  "{" +:+ join ", " ((fun kv => "'" +:+ kv.1 +:+ "': '" +:+ kv.2 +:+ "'") <$> index_entries)
  +:+ "}".

Definition nl : string := String (ascii_of_nat 10) EmptyString.

Definition soc_column : string := "O*NET-SOC Code".

(** [get_table], lines 738-768.  [files] is the flat-file store: what
    [pd.read_csv(path, sep='\t')] gives for a path, a table or the
    exception of a file that is missing or cannot be read. *)
Definition get_table (files : string -> outcome frame) (table : string)
    (soc : list pyval) : M world (option frame) :=
  match index !! table with
  | None =>
      print (exn_text (KeyError table));;
      print (table +:+ " not valid table name" +:+ nl
             +:+ "valid table name shortand:" +:+ nl +:+ index_text);;
      mret None
  | Some name =>
      self ← (fun w => (Ret w, w));
      tab ← lift (files (match current_path self with Some p => p | None => "None" end
                         +:+ "/" +:+ name));
      if decide (soc = []) then mret (Some tab)
      else
        match col_index soc_column (columns tab) with
        | None => raise (KeyError soc_column)
        | Some i => mret (Some (select_rows (fun r => bool_decide (cell i r ∈ soc)) tab))
        end
  end.

Section Views.

(** Two operations of the table library are taken as they come:
    [prod], the product of the data values of a group, which is
    arithmetic on floats, and [pivot], the reshaping
    [df.pivot(index, columns, values)], whose result is kept with its
    index as first column. *)
Variable prod : list pyval -> outcome pyval.
Variable pivot : frame -> string -> string -> string -> outcome frame.

(** [pd.DataFrame(df.groupby(keys)[c].prod()).reset_index()]. *)
Fixpoint prod_groups (ix : list nat) (j : nat) (ks : list (list pyval))
    (rs : list (list pyval)) : outcome (list (list pyval)) :=
  match ks with
  | [] => Ret []
  | k :: rest =>
      obind (prod ((cell j) <$> group_rows ix k rs)) (fun p =>
      obind (prod_groups ix j rest rs) (fun out => Ret ((k ++ [p]) :: out)))
  end.

Definition groupby_prod (df : frame) (keys : list string) (c : string) : outcome frame :=
  obind (col_indices keys (columns df)) (fun ix =>
    match col_index c (columns df) with
    | None => Raise (KeyError ("Column not found: " +:+ c))
    | Some j =>
        obind (prod_groups ix j (group_keys ix (rows df)) (rows df)) (fun out =>
        Ret (Build (keys ++ [c]) out))
    end).

(** Lines 820-828: the layout asked for by [how]. *)
Definition quant_layout (quant : frame) (how : string) : M world (option frame) :=
  if decide (how = "long") then
    out ← lift (project quant [soc_column; "Element ID"; "Element Name"; "Data Value"]%string);
    mret (Some out)
  else if decide (how = "wide_clean") then
    out ← lift (pivot quant soc_column "Element Name" "Data Value");
    mret (Some out)
  else if decide (how = "wide_raw") then
    out ← lift (pivot quant soc_column "Element ID" "Data Value");
    mret (Some out)
  else
    print (how +:+ " not a valid how. options: long, wide_clean, wide_raw");;
    mret None.

(** [quant_view], lines 770-832.  The trace of a caught exception goes
    to the error stream, which the state does not record. *)
Definition quant_view (files : string -> outcome frame) (table : string)
    (soc : list pyval) (scale how : string) : M world (option frame) :=
  try_except
    (quant ← get_table files table soc;
     if decide (scale ≠ "product"%string) then
       if decide (scale ∈ ["IM"; "LV"]%string) then
         match quant with
         | None => raise (TypeError "'NoneType' object is not subscriptable")
         | Some q =>
             match col_index "Scale ID" (columns q) with
             | None => raise (KeyError "Scale ID")
             | Some i =>
                 quant_layout
                   (select_rows (fun r => bool_decide (cell i r = PStr scale)) q) how
             end
         end
       else
         print (scale +:+ " not a valid scale. options: IM, LV, product");;
         mret None
     else
       match quant with
       | None => raise (AttributeError "'NoneType' object has no attribute 'groupby'")
       | Some q =>
           grouped ← lift (groupby_prod q [soc_column; "Element ID"; "Element Name"]%string
                             "Data Value");
           quant_layout grouped how
       end)
    (fun _ => print (table +:+ " not viable for quant_view");; mret None).

(** [df.fillna(False)]. *)
Definition fillna_false (df : frame) : frame :=
  Build (columns df)
    ((fun r : list pyval => (fun v => if is_null v then PBool false else v) <$> r)
       <$> rows df).

(** [qual_view], lines 834-875; [pivot_col] is [None] for the default. *)
Definition qual_view (files : string -> outcome frame) (table : string)
    (soc : list pyval) (how : string) (pivot_col : option string)
  : M world (option frame) :=
  qual ← get_table files table soc;
  if decide (how = "long") then mret qual
  else if decide (how = "wide") then
    match pivot_col with
    | None =>
        print "select categorical column to use as new columns in wide transformation";;
        mret None
    | Some c =>
        match qual with
        | None => raise (TypeError "'NoneType' object does not support item assignment")
        | Some q =>
            let marked := setcol q "bool" (replicate (len q) (PBool true)) in
            wide ← lift (pivot marked soc_column c "bool");
            mret (Some (fillna_false wide))
        end
    end
  else
    print (how +:+ " not a valid how. options: long, wide");;
    mret None.

End Views.

(** [s.replace('_', '.')]. *)
Fixpoint underscores_to_dots (s : string) : string :=
  match s with
  | EmptyString => EmptyString
  | String c s' =>
      String (if Ascii.eqb c "_" then "."%char else c) (underscores_to_dots s')
  end.

(** Line 672: the version a directory name stands for. *)
Definition directory_version (current : string) : outcome Q :=
  match split "db_" current with
  | _ :: after :: _ =>
      match split "_text" after with
      | v :: _ =>
          match float_of_str (underscores_to_dots v) with
          | Some q => Ret q
          | None =>
              Raise (ValueError ("could not convert string to float: '"
                                 +:+ underscores_to_dots v +:+ "'"))
          end
      | [] => Raise (IndexError "list index out of range")
      end
  | _ => Raise (IndexError "list index out of range")
  end.

(** The entries of the target directory that are no archive. *)
Definition unpacked (w : world) : list string :=
  List.filter (fun i => negb (contains ".zip" i)) (listdir w).

(** A new instance reads [current], [version] and [current_path] from
    the class: unset, 0 and unset. *)
Definition class_defaults : M world unit := fun w =>
  (Ret tt, World None 0 None (zips w) (extracted w) (requested w) (stdout w)).

Definition get_self : M world world := fun w => (Ret w, w).

Definition set_current (cur path : string) : M world unit := fun w =>
  (Ret tt, World (Some cur) (version w) (Some path) (zips w) (extracted w) (requested w)
             (stdout w)).

Definition set_version (v : Q) : M world unit := fun w =>
  (Ret tt, World (current w) v (current_path w) (zips w) (extracted w) (requested w)
             (stdout w)).

(** Lines 670-672: the newest unpacked directory becomes the current
    one, then its version is read from its name. *)
Definition adopt_local : M world unit :=
  self ← get_self;
  cur ← lift (max_str (unpacked self));
  set_current cur (target +:+ "/" +:+ cur);;
  v ← lift (directory_version cur);
  set_version v.

(** [__init__], lines 653-677.  [exists_] says whether the target
    directory is there; when it is not it is created, empty. *)
Definition init (net : remote) (exists_ : bool) (update : bool) : M world unit :=
  class_defaults;;
  self ← get_self;
  update ← (if negb exists_ then mret true
            else if decide (0 < length (unpacked self))%nat
                 then adopt_local;; mret update
                 else mret true);
  if (update : bool) then get_new_database net else mret tt.

(** The path [get_table] reads for a file name. *)
Definition table_path (w : world) (name : string) : string :=
  match current_path w with Some p => p | None => "None" end +:+ "/" +:+ name.

(** The characters of a version in a directory name: digits and
    underscores. *)
Definition version_char (c : ascii) : bool := is_digit c || Ascii.eqb c "_".

Fixpoint version_text (s : string) : bool :=
  match s with
  | EmptyString => true
  | String c s' => version_char c && version_text s'
  end.

End ONETData.

(** ** Further example data *)

Module MoreExamples.

(** A flat-file store that holds the skills table of release 25.0 and
    nothing else. *)
Definition skills : frame :=
  Build ["O*NET-SOC Code"; "Element ID"; "Element Name"; "Scale ID"; "Data Value"]%string
    [[PStr "11-1011.00"; PStr "2.A.1.a"; PStr "Reading Comprehension"; PStr "IM";
      PFloat "4.12"];
     [PStr "11-1011.00"; PStr "2.A.1.a"; PStr "Reading Comprehension"; PStr "LV";
      PFloat "4.75"];
     [PStr "11-2011.00"; PStr "2.A.1.a"; PStr "Reading Comprehension"; PStr "IM";
      PFloat "3.88"]].

Definition files (path : string) : outcome frame :=
  if decide (path = "D:/data/ONET_database/db_25_0_text/Skills.txt"%string)
  then Ret skills
  else Raise (ValueError ("No such file or directory: '" +:+ path +:+ "'")).

(** Stand-ins for the two library operations the views take as given. *)
Definition no_prod (l : list pyval) : outcome pyval :=
  Raise (TypeError "product not available").

Definition no_pivot (df : frame) (i c v : string) : outcome frame :=
  Raise (TypeError "pivot not available").

(** A table of value sets in which the code 1 of [SEX] is given twice. *)
Definition valuesets : frame :=
  Build ["varName"; "Codevalue"; "valueLabel"]%string
    [[PStr "SEX"; PInt 1; PStr "Men"];
     [PStr "SEX"; PInt 2; PStr "Women"];
     [PStr "SEX"; PInt 1; PStr "Male"];
     [PStr "LEVEL"; PInt 1; PStr "Certificate"]].

Definition vartable : frame :=
  Build ["TableName"; "varName"; "varTitle"]%string
    [[PStr "C2019_A"; PStr "CIPCODE"; PStr "CIP Code"];
     [PStr "C2019_A"; PStr "CTOTALT"; PStr "Grand total"];
     [PStr "HD2019"; PStr "UNITID"; PStr "Unique identification number"]].

Definition catalog : IPEDS.handler :=
  IPEDS.Handler
    (Some {[ "valuesets19"%string := valuesets; "vartable19"%string := vartable ]}) ∅ None.

Definition tables19 : frame :=
  Build ["TableName"; "Release"; "TableTitle"]%string
    [[PStr "HD2019"; PStr "Final"; PStr "Institutional Characteristics"];
     [PStr "C2019_A"; PStr "Final"; PStr "Completions"]].

Definition listing : IPEDS.handler :=
  IPEDS.Handler (Some {[ "tables19"%string := tables19 ]}) ∅ None.

End MoreExamples.

(** * Properties *)

Import IPEDS.

(** ** Geography resolution *)

(** C10: with the three geography filters absent, [get_unitid] returns
    the empty tuple at once: the state, and with it the list of queries
    sent, is the one it was called in. *)
Theorem get_unitid_no_filter (self : handler) (clean_geography : bool) (w : world) :
  get_unitid self None None None clean_geography w = (Ret OTuple0, w)
  ∧ obj_len OTuple0 = Ret O.
Proof. split; reflexivity. Qed.

(** ** Classification codes *)

Section Normalisation.

Import Spec.

Lemma below_100 (n : Z) (P : Z -> Prop) :
  0 <= n <= 99 -> (forall k : nat, (k < 100)%nat -> P (Z.of_nat k)) -> P n.
Proof.
  intros Hn HP. rewrite <- (Z2Nat.id n) by lia. apply HP. lia.
Qed.

Lemma format_02d_two_digits (n : Z) : 0 <= n <= 99 -> format_02d n = two_digits n.
Proof.
  intros Hn. apply (below_100 n (fun z => format_02d z = two_digits z) Hn).
  intros k Hk.
  do 100 (destruct k as [|k]; [vm_compute; reflexivity|]).
  lia.
Qed.


Lemma select_rows_spec (p : list pyval -> bool) (df : frame) (r : list pyval) :
  r ∈ rows (select_rows p df) <-> r ∈ rows df ∧ p r = true.
Proof.
  unfold select_rows; simpl. rewrite !list_elem_of_In, filter_In. reflexivity.
Qed.




End Normalisation.

(** ** Reasoning about computations *)

Section Computations.

Context {S : Type}.

Lemma bind_ret_inv {A B} (m : M S A) (f : A -> M S B) (s s' : S) (b : B) :
  (m ≫= f) s = (Ret b, s') ->
  ∃ a s1, m s = (Ret a, s1) ∧ f a s1 = (Ret b, s').
Proof.
  unfold mbind, M_bind. destruct (m s) as [[a|e] s1]; [eauto|discriminate].
Qed.

Lemma lift_ret_inv {A} (o : outcome A) (s s' : S) (a : A) :
  lift o s = (Ret a, s') -> o = Ret a ∧ s' = s.
Proof. unfold lift. intros [= -> ->]. auto. Qed.

Lemma mret_inv {A} (a b : A) (s s' : S) :
  (mret a : M S A) s = (Ret b, s') -> a = b ∧ s' = s.
Proof. unfold mret, M_ret. intros [= -> ->]. auto. Qed.

End Computations.

Lemma obind_ret_inv {A B} (o : outcome A) (f : A -> outcome B) (b : B) :
  obind o f = Ret b -> ∃ a, o = Ret a ∧ f a = Ret b.
Proof. destruct o; simpl; [eauto|discriminate]. Qed.

(** ** What the IPEDS methods leave untouched *)

Section Frames.

(** [select] never raises, and only adds to the queries and the output. *)
Lemma select_returns (self : handler) name variables where_ rp rn (w : world) :
  ∃ t w', select self name variables where_ rp rn w = (Ret t, w') ∧ heap w' = heap w.
Proof.
  unfold select, try_except.
  destruct (decide (name = EmptyString)); [eexists _, _; split; reflexivity|].
  unfold mbind, M_bind, read_sql_query.
  destruct (conn self) as [db|]; [|eexists _, _; split; reflexivity].
  destruct (exec_query db _) as [t|e]; [|eexists _, _; split; reflexivity].
  destruct (rp || rn).
  - unfold lift. destruct (clean self t name rp rn);
      eexists _, _; split; reflexivity.
  - eexists _, _; split; reflexivity.
Qed.

Lemma get_unitid_heap (self : handler) sf cf z cg (w w' : world) (o : outcome pyobj) :
  get_unitid self sf cf z cg w = (o, w') -> heap w' = heap w.
Proof.
  unfold get_unitid.
  set (vars := ["UNITID"; "FIPS"; "STABBR"; "COUNTYCD"; "COUNTYNM"; "ZIP"]%string).
  assert (Hsel : forall wh, ∀ o w', 
    (utd ← select self "HD2019" vars wh false false;
     if cg then utd ← lift (decode_geography utd); mret (OFrame utd)
     else mret (of_table utd)) w = (o, w') -> heap w' = heap w).
  { intros wh o0 w0. unfold mbind at 1. unfold M_bind.
    destruct (select_returns self "HD2019" vars wh false false w) as (t & w1 & -> & Hh).
    destruct cg.
    - unfold mbind, M_bind, lift. destruct (decode_geography t); intros [= _ <-]; exact Hh.
    - intros [= _ <-]; exact Hh. }
  destruct sf, cf, z; try (apply Hsel).
  intros [= _ <-]. reflexivity.
Qed.

End Frames.

(** ** The caller's code list *)

Section CodeList.

Lemma list_contents_insert (l : nat) (cs : list pyval) (w : world) :
  list_contents l (World (queries w) (stdout w) (<[l := cs]> (heap w))) = cs.
Proof. unfold list_contents. simpl. rewrite lookup_insert_eq. reflexivity. Qed.

(** The loop of lines 375-381, run to its end from index [i]: the
    elements from [i] on are replaced by their normalised codes, the
    elements before [i] and everything else in the state stay. *)
Lemma normalize_loop_spec (l : nat) (n : nat) :
  forall (i : nat) (w w' : world),
    normalize_loop l i n w = (Ret tt, w') ->
    (i + n)%nat = length (list_contents l w) ->
    queries w' = queries w ∧ stdout w' = stdout w
    ∧ (forall l', l' ≠ l -> heap w' !! l' = heap w !! l')
    ∧ ∃ codes,
        Forall2 (fun c code => normalize_code c = Ret code) (skipn i (list_contents l w)) codes
        ∧ list_contents l w' = firstn i (list_contents l w) ++ (PStr <$> codes).
Proof.
  induction n as [|n IH]; intros i w w' Hrun Hlen.
  - apply mret_inv in Hrun as [_ ->].
    split; [reflexivity|split; [reflexivity|split; [reflexivity|]]]. exists [].
    rewrite drop_ge, take_ge, app_nil_r by lia. split; [constructor|reflexivity].
  - simpl in Hrun.
    apply bind_ret_inv in Hrun as (c & w1 & Hget & Hrun).
    apply bind_ret_inv in Hrun as (code & w2 & Hcode & Hrun).
    apply bind_ret_inv in Hrun as ([] & w3 & Hset & Hrun).
    unfold list_get in Hget.
    destruct (list_contents l w !! i) as [c'|] eqn:Hc; [|discriminate].
    injection Hget as -> ->.
    apply lift_ret_inv in Hcode as [Hcode ->].
    unfold list_set in Hset.
    destruct (decide (i < length (list_contents l w1))%nat) as [Hi|]; [|discriminate].
    injection Hset as <-.
    apply IH in Hrun as (Hq & Ho & Hother & codes & Hcodes & Hfinal).
    + simpl in Hq, Ho. split; [exact Hq|split; [exact Ho|split]].
      * intros l' Hne. rewrite (Hother l' Hne). simpl.
        apply lookup_insert_ne. congruence.
      * exists (code :: codes).
        rewrite list_contents_insert in Hcodes, Hfinal.
        rewrite drop_insert_lt in Hcodes by lia.
        rewrite (drop_S _ _ _ Hc). split; [constructor; assumption|].
        rewrite Hfinal, take_insert_lt by lia.
        rewrite (take_S_r _ _ _ Hc).
        rewrite insert_app_r_alt by (rewrite length_take; lia).
        rewrite length_take, Nat.min_l, Nat.sub_diag by lia.
        simpl. rewrite <- app_assoc. reflexivity.
    + rewrite list_contents_insert, length_insert. lia.
Qed.

End CodeList.

Section CodeListOwner.

Import Spec.

Lemma list_contents_heap (l : nat) (w1 w2 : world) :
  heap w1 = heap w2 -> list_contents l w1 = list_contents l w2.
Proof. unfold list_contents. intros ->. reflexivity. Qed.

Lemma overwritten_heap (l : nat) (w0 w w' : world) :
  heap w = heap w0 -> overwritten l w w' -> overwritten l w0 w'.
Proof.
  intros Hh (codes & Hc & Hl & Ho). exists codes.
  rewrite <- (list_contents_heap l w w0 Hh), <- Hh. auto.
Qed.

Lemma school_query_rows_codes (self : handler) (l : nat) majornum unitid how
    keep_geography geog (w w' : world) (t : frame) :
  list_contents l w ≠ [] ->
  school_query_rows self (Some l) majornum unitid how keep_geography geog w
  = (Ret (Some t), w') ->
  overwritten l w w'.
Proof.
  intros Hne H. unfold school_query_rows in H.
  destruct (how_variables how) as [vars|]; [|discriminate].
  apply bind_ret_inv in H as (awd & w1 & Hsel & H).
  destruct (select_returns self "C2019_A" (["UNITID"; "CIPCODE"]%string ++ vars)
              (CEq "MAJORNUM" (str (PInt majornum))
               :: (if decide (0 < length unitid)%nat
                   then [CIn "UNITID" (str <$> unitid)] else []))
              false false w) as (t0 & w0 & Hsel' & Hheap).
  rewrite Hsel' in Hsel. injection Hsel as <- <-.
  apply bind_ret_inv in H as (awd2 & w2 & Hcip & H).
  apply (overwritten_heap l w w0 w' Hheap).
  rewrite <- (list_contents_heap l w0 w Hheap) in Hne.
  assert (Hw : w' = w2).
  { destruct keep_geography; [destruct awd2, geog|].
    - apply bind_ret_inv in H as (? & ? & H1 & H2).
      apply lift_ret_inv in H1 as [_ ->]. apply mret_inv in H2 as [_ ->]. reflexivity.
    - discriminate.
    - discriminate.
    - discriminate.
    - apply mret_inv in H as [_ ->]. reflexivity. }
  subst w'. clear H.
  apply bind_ret_inv in Hcip as (given & w3 & Hgiven & Hcip).
  injection Hgiven as <- <-.
  destruct (decide (list_contents l w0 = [])); [contradiction|].
  apply bind_ret_inv in Hcip as ([] & w4 & Hloop & Hcip).
  apply bind_ret_inv in Hcip as (codes & w5 & Hcodes & Hcip).
  injection Hcodes as <- <-.
  apply bind_ret_inv in Hcip as (kept & w6 & Hisin & Hcip).
  apply lift_ret_inv in Hisin as [_ ->]. apply mret_inv in Hcip as [_ ->].
  apply normalize_loop_spec in Hloop as (_ & _ & Hother & codes & Hcodes & Hfinal);
    [|reflexivity].
  exists codes. auto.
Qed.

Lemma school_query_codes (self : handler) sf cf z lvl (l : nat) majornum
    unitid how rn lb keep_geography cg (w w' : world) (t : frame) :
  list_contents l w ≠ [] ->
  school_query self sf cf z lvl (Some l) majornum unitid how rn lb keep_geography cg w
  = (Ret (Some t), w') ->
  overwritten l w w'.
Proof.
  intros Hne H. unfold school_query in H.
  assert (Hgeo : forall w0 w1,
    (utd ← get_unitid self sf cf z cg;
     n ← lift (obj_len utd);
     if decide (n = O) then print "no colleges found in search area";; mret None
     else
       geog ← match keep_geography with
              | None => mret (Some None)
              | Some kg =>
                  try_except
                    (g ← lift (obj_project utd ["UNITID"; kg]); mret (Some (Some g)))
                    (fun _ =>
                       print "{} not valid for keep_geography. valid options: FIPS, COUNTYCD, ZIP";;
                       mret None)
              end;
       match geog with
       | None => mret None
       | Some geog =>
           unitid ← lift (obj_col utd "UNITID");
           school_query_rows self (Some l) majornum unitid how keep_geography geog
       end) w0 = (Ret (Some t), w1) ->
    list_contents l w0 ≠ [] -> overwritten l w0 w1).
  { clear. intros w0 w1 H Hne.
    apply bind_ret_inv in H as (utd & w2 & Hutd & H).
    apply get_unitid_heap in Hutd.
    apply bind_ret_inv in H as (n & w3 & Hn & H).
    apply lift_ret_inv in Hn as [_ ->].
    destruct (decide (n = O)); [discriminate|].
    apply bind_ret_inv in H as (geog & w4 & Hgeog & H).
    assert (Hh : heap w4 = heap w0).
    { destruct keep_geography as [kg|].
      - unfold try_except, mbind, M_bind, lift in Hgeog.
        destruct (obj_project utd ["UNITID"; kg]); injection Hgeog as _ <-; exact Hutd.
      - apply mret_inv in Hgeog as [_ ->]. exact Hutd. }
    destruct geog as [geog|]; [|discriminate].
    apply bind_ret_inv in H as (ids & w5 & Hids & H).
    apply lift_ret_inv in Hids as [_ ->].
    apply (overwritten_heap l w0 w4 w1 Hh).
    apply school_query_rows_codes in H; [exact H|].
    rewrite (list_contents_heap l w4 w0 Hh). exact Hne. }
  destruct sf, cf, z;
    first [ apply (Hgeo w w' H Hne)
          | apply (school_query_rows_codes _ _ _ _ _ _ _ _ _ _ Hne H) ].
Qed.

(** What [awards] and [programs] do after [school_query] has returned
    changes no list object. *)
Lemma awards_school_query (self : handler) sf cf z lvl cipcode majornum unitid how rn lb
    keep_geography cg (w w' : world) (out : frame) :
  awards self sf cf z lvl cipcode majornum unitid how rn lb keep_geography cg w
  = (Ret (Some out), w') ->
  ∃ t, school_query self sf cf z lvl cipcode majornum unitid how rn lb keep_geography cg w
       = (Ret (Some t), w').
Proof.
  intros H. unfold awards in H.
  apply bind_ret_inv in H as (agg & w1 & Hagg & H).
  assert (w' = w1) as ->.
  { destruct (level_rows lvl agg); [|discriminate].
    apply bind_ret_inv in H as (k & w2 & Hk & H). apply lift_ret_inv in Hk as [_ ->].
    apply bind_ret_inv in H as (res & w3 & Ho & H). apply lift_ret_inv in Ho as [_ ->].
    apply mret_inv in H as [_ ->]. reflexivity. }
  clear H. unfold awards_grouped in Hagg.
  apply bind_ret_inv in Hagg as (found & w2 & Hfound & H).
  destruct found as [t|]; [|discriminate].
  exists t. rewrite Hfound. do 2 f_equal.
  apply bind_ret_inv in H as (a1 & w3 & H1 & H). apply lift_ret_inv in H1 as [_ ->].
  apply bind_ret_inv in H as (a2 & w4 & H2 & H). apply lift_ret_inv in H2 as [_ ->].
  destruct lb.
  - apply lift_ret_inv in H as [_ ->]. reflexivity.
  - apply mret_inv in H as [_ ->]. reflexivity.
Qed.

Lemma programs_school_query (self : handler) sf cf z lvl cipcode unitid rn lb
    keep_geography cg (w w' : world) (out : frame) :
  programs self sf cf z lvl cipcode unitid rn lb keep_geography cg w
  = (Ret (Some out), w') ->
  ∃ t, school_query self sf cf z lvl cipcode 1 unitid "total" rn lb keep_geography cg w
       = (Ret (Some t), w').
Proof.
  intros H. unfold programs in H.
  apply bind_ret_inv in H as (agg & w1 & Hagg & H).
  assert (w' = w1) as ->.
  { destruct (level_rows lvl agg); [|discriminate].
    apply bind_ret_inv in H as (k & w2 & Hk & H). apply lift_ret_inv in Hk as [_ ->].
    apply mret_inv in H as [_ ->]. reflexivity. }
  clear H. unfold programs_grouped in Hagg.
  apply bind_ret_inv in Hagg as (found & w2 & Hfound & H).
  destruct found as [t|]; [|discriminate].
  exists t. rewrite Hfound. do 2 f_equal.
  apply bind_ret_inv in H as (a1 & w3 & H1 & H). apply lift_ret_inv in H1 as [_ ->].
  destruct lb.
  - apply lift_ret_inv in H as [_ ->]. reflexivity.
  - apply mret_inv in H as [_ ->]. reflexivity.
Qed.

(** C8, as amended: a call of [school_query], [awards] or [programs]
    with a non-empty code list that returns a table has overwritten the
    caller's list object: each element is replaced, in place, by its
    normalised code.  Every other list object is as before. *)
Theorem school_query_overwrites_codes (self : handler) sf cf z lvl (l : nat) majornum
    unitid how rn lb keep_geography cg (w w' : world) (t : frame) :
  list_contents l w ≠ [] ->
  school_query self sf cf z lvl (Some l) majornum unitid how rn lb keep_geography cg w
  = (Ret (Some t), w')
  ∨ awards self sf cf z lvl (Some l) majornum unitid how rn lb keep_geography cg w
    = (Ret (Some t), w')
  ∨ programs self sf cf z lvl (Some l) unitid rn lb keep_geography cg w
    = (Ret (Some t), w') ->
  ∃ codes,
    Forall2 (fun c code => normalize_code c = Ret code) (list_contents l w) codes
    ∧ list_contents l w' = PStr <$> codes
    ∧ forall l', l' ≠ l -> heap w' !! l' = heap w !! l'.
Proof.
  intros Hne [H|[H|H]]; change (overwritten l w w').
  - exact (school_query_codes _ _ _ _ _ _ _ _ _ _ _ _ _ _ _ _ Hne H).
  - apply awards_school_query in H as [t0 H].
    exact (school_query_codes _ _ _ _ _ _ _ _ _ _ _ _ _ _ _ _ Hne H).
  - apply programs_school_query in H as [t0 H].
    exact (school_query_codes _ _ _ _ _ _ _ _ _ _ _ _ _ _ _ _ Hne H).
Qed.

Lemma school_query_overwrites_codes_witness :
  ∃ codes,
    Forall2 (fun c code => normalize_code c = Ret code)
      (list_contents 0 (Examples.with_codes [PFloat "1.1"; PInt 45])) codes
    ∧ list_contents 0
        (school_query Examples.ipeds None None None (LInt 6) (Some O) 1 [] "total"
           true false None false (Examples.with_codes [PFloat "1.1"; PInt 45])).2
      = PStr <$> codes.
Proof.
  destruct (school_query_overwrites_codes Examples.ipeds None None None (LInt 6) O 1 []
              "total" true false None false
              (Examples.with_codes [PFloat "1.1"; PInt 45])
              (school_query Examples.ipeds None None None (LInt 6) (Some O) 1 [] "total"
                 true false None false (Examples.with_codes [PFloat "1.1"; PInt 45])).2
              (Build ["UNITID"; "CIPCODE"; "CTOTALT"]%string [])
              ltac:(vm_compute; discriminate) ltac:(left; vm_compute; reflexivity))
    as (codes & Hc & Hl & _).
  exists codes. split; assumption.
Defined.

(** C8, as stated, fails: after the call the caller's list [[1.0101]]
    holds the text ['01.0101']. *)
Lemma school_query_mutates_codes :
  (school_query Examples.ipeds None None None (LInt 6) (Some O) 1 [] "total"
     true false None false (Examples.with_codes [PFloat "1.0101"])).1
  = Ret (Some (Build ["UNITID"; "CIPCODE"; "CTOTALT"]%string
                 [[PInt 100; PStr "01.0101"; PInt 3]; [PInt 200; PStr "01.0101"; PInt 5]]))
  ∧ list_contents 0 (Examples.with_codes [PFloat "1.0101"]) = [PFloat "1.0101"]
  ∧ list_contents 0
      (school_query Examples.ipeds None None None (LInt 6) (Some O) 1 [] "total"
         true false None false (Examples.with_codes [PFloat "1.0101"])).2
    = [PStr "01.0101"].
Proof. vm_compute. repeat split. Qed.

End CodeListOwner.

(** ** Counting schools *)

(** C1 fails on the code: [schools] returns the number of award rows.
    In the example the filter resolves institution 100 alone, the award
    table has three rows of that one institution for its first major,
    and the call returns 3. *)
Theorem schools_counts_award_rows :
  (get_unitid Examples.ipeds (Some (One 1)) None None false Examples.fresh).1
  = Ret (OFrame (Build ["UNITID"; "FIPS"; "STABBR"; "COUNTYCD"; "COUNTYNM"; "ZIP"]%string
                   [[PInt 100; PInt 1; PStr "AL"; PInt 1001; PStr "Autauga County";
                     PStr "36003"]]))
  ∧ Spec.institutions_present [PInt 100] Examples.c2019_a = 1%nat
  ∧ (schools Examples.ipeds (Some (One 1)) None None [] None false Examples.fresh).1
    = Ret (OInt 3).
Proof. vm_compute. repeat split. Qed.

(** ** Errors *)

(** C2 fails on the code: with a [how] that is none of the four options
    [school_query] prints its message and returns nothing, and [awards]
    then asks that nothing for [drop]: the [AttributeError] reaches the
    caller. *)
Theorem awards_invalid_how_raises (self : handler) lvl cipcode majornum unitid how rn lb
    keep_geography cg (w : world) :
  how_variables how = None ->
  awards self None None None lvl cipcode majornum unitid how rn lb keep_geography cg w
  = (Raise (AttributeError "'NoneType' object has no attribute 'drop'"),
     World (queries w)
       (stdout w ++ ["{} not a valid option for " +:+ dq +:+ "how" +:+ dq
                     +:+ ". valid options: total, race, sex, race_sex"])
       (heap w)).
Proof.
  intros Hhow.
  unfold awards, awards_grouped, school_query, school_query_rows.
  rewrite Hhow. reflexivity.
Qed.

Lemma awards_invalid_how_raises_witness :
  (awards Examples.ipeds None None None (LInt 6) None 1 [] "gender" true false None false
     Examples.fresh).1
  = Raise (AttributeError "'NoneType' object has no attribute 'drop'").
Proof.
  rewrite (awards_invalid_how_raises Examples.ipeds (LInt 6) None 1 [] "gender" true false
             None false Examples.fresh eq_refl).
  reflexivity.
Defined.

(** ** The release check *)

Section Release.

Import ONET.

(** C6 fails on the code.  When the version in the heading is not newer
    the call prints that the database is up to date and changes nothing
    else; when it is newer, the call of line 732 names a method the class
    does not have: an [AttributeError] is raised before anything is
    fetched, and the bookkeeping stays as it was. *)
Theorem get_new_database_newer_raises (net : remote) (w : world) (p : page) (v : Q)
    (href : string) :
  listing net = Ret p ->
  heading_version p = Ret v ->
  archive_link p = Ret href ->
  (Qle_bool v (version w) = true ->
   get_new_database net w
   = (Ret tt,
      World (current w) (version w) (current_path w) (zips w) (extracted w)
        (requested w ++ ["https://www.onetcenter.org/db_releases.html"%string])
        (stdout w ++ ["database up to date, version "
                      +:+ match current w with Some c => c | None => "None" end])))
  ∧ (Qle_bool v (version w) = false ->
     get_new_database net w
     = (Raise (AttributeError "'ONETHandler' object has no attribute 'donwload_data'"),
        World (current w) (version w) (current_path w) (zips w) (extracted w)
          (requested w ++ ["https://www.onetcenter.org/db_releases.html"%string])
          (stdout w))).
Proof.
  intros Hpage Hv Hlink.
  split; intros Hcmp;
    unfold get_new_database, mbind, M_bind, get_listing, lift;
    rewrite Hpage, Hv; simpl; rewrite Hcmp; [reflexivity|].
  rewrite Hlink. reflexivity.
Qed.

Lemma get_new_database_newer_raises_witness :
  get_new_database Examples.site Examples.local_25
  = (Raise (AttributeError "'ONETHandler' object has no attribute 'donwload_data'"),
     World (Some "db_25_0_text"%string) (25 # 1)
       (Some "D:/data/ONET_database/db_25_0_text"%string) ∅ ["db_25_0_text"%string]
       ["https://www.onetcenter.org/db_releases.html"%string] []).
Proof.
  exact (proj2 (get_new_database_newer_raises Examples.site Examples.local_25
                  Examples.release_page (280 # 10) "/dl_files/database/db_28_0_text.zip"
                  eq_refl eq_refl eq_refl) eq_refl).
Defined.

End Release.

(** ** Granularity levels *)

Section Levels.

Import Spec.

Lemma filter_sublist {A} (p : A -> bool) (l : list A) : List.filter p l `sublist_of` l.
Proof.
  induction l as [|x l IH]; simpl; [constructor|].
  destruct (p x); [apply sublist_skip|apply sublist_cons]; exact IH.
Qed.









End Levels.

(** ** The last step of awards and programs *)

Section FinalStep.

(** C7, as amended: the table [awards] returns is the selection for the
    level with its rows as they are (no value is replaced by a label)
    and, when [rename] is set, its columns retitled through the variable
    titles of [C2019_A]; the table [programs] returns is the selection
    itself. *)
Theorem awards_renames_programs_plain (self : handler) sf cf z lvl cipcode majornum
    unitid how rn lb keep_geography cg (w w' : world) (out : frame) :
  (awards self sf cf z lvl cipcode majornum unitid how rn lb keep_geography cg w
   = (Ret (Some out), w') ->
   ∃ agg kept,
     awards_grouped self sf cf z lvl cipcode majornum unitid how rn lb keep_geography cg w
     = (Ret agg, w')
     ∧ level_rows lvl agg = Some (Ret kept)
     ∧ rows out = rows kept
     ∧ if rn
       then ∃ vn m, varnames self = Some vn ∧ vn !! "C2019_A"%string = Some m
                    ∧ columns out = (fun c => default c (m !! c)) <$> columns kept
       else columns out = columns kept)
  ∧ (programs self sf cf z lvl cipcode unitid rn lb keep_geography cg w
     = (Ret (Some out), w') ->
     ∃ agg,
       programs_grouped self sf cf z lvl cipcode unitid rn lb keep_geography cg w
       = (Ret agg, w')
       ∧ level_rows lvl agg = Some (Ret out)).
Proof.
  split; intros H.
  - unfold awards in H.
    apply bind_ret_inv in H as (agg & w1 & Hagg & H).
    destruct (level_rows lvl agg) as [kept|] eqn:Hlv; [|discriminate].
    apply bind_ret_inv in H as (k & w2 & Hk & H).
    apply lift_ret_inv in Hk as [-> ->].
    apply bind_ret_inv in H as (o & w3 & Ho & H).
    apply lift_ret_inv in Ho as [Ho ->].
    apply mret_inv in H as [[= ->] ->].
    exists agg, k. split; [exact Hagg|]. split; [exact Hlv|].
    unfold clean in Ho. destruct rn.
    + destruct (varnames self) as [vn|]; [|discriminate].
      destruct (vn !! "C2019_A"%string) as [m|] eqn:Hm; [|discriminate].
      injection Ho as <-. split; [reflexivity|]. exists vn, m. auto.
    + injection Ho as <-. auto.
  - unfold programs in H.
    apply bind_ret_inv in H as (agg & w1 & Hagg & H).
    destruct (level_rows lvl agg) as [kept|] eqn:Hlv; [|discriminate].
    apply bind_ret_inv in H as (k & w2 & Hk & H).
    apply lift_ret_inv in Hk as [-> ->].
    apply mret_inv in H as [[= ->] ->].
    exists agg. auto.
Qed.

Lemma awards_renames_programs_plain_witness :
  ∃ agg kept,
    (awards_grouped Examples.ipeds None None None (LInt 6) None 1 [] "total" true false
       None false Examples.fresh).1 = Ret agg
    ∧ level_rows (LInt 6) agg = Some (Ret kept)
    ∧ [[PStr "01.0101"; PInt 8]] = rows kept.
Proof.
  destruct (proj1 (awards_renames_programs_plain Examples.ipeds None None None (LInt 6)
                     None 1 [] "total" true false None false Examples.fresh
                     (awards Examples.ipeds None None None (LInt 6) None 1 [] "total"
                        true false None false Examples.fresh).2
                     (Build ["CIP Code"; "Grand total"]%string
                        [[PStr "01.0101"; PInt 8]]))
              ltac:(vm_compute; reflexivity))
    as (agg & kept & Hagg & Hkept & Hrows & _).
  exists agg, kept. rewrite Hagg. auto.
Defined.

(** C7, as stated, fails: the decode dictionary has a label for the code
    [01.0101], and the table [awards] returns still carries the code;
    [clean] with the decode set would have put the label. *)
Lemma awards_not_decoded :
  (awards_grouped Examples.ipeds None None None (LStr "all") None 1 [] "total" true false
     None false Examples.fresh).1
  = Ret (Build ["CIPCODE"; "CTOTALT"]%string
           [[PStr "01"; PInt 3]; [PStr "01.0101"; PInt 8]; [PStr "99"; PInt 3]])
  ∧ (awards Examples.ipeds None None None (LStr "all") None 1 [] "total" true false
       None false Examples.fresh).1
    = Ret (Some (Build ["CIP Code"; "Grand total"]%string
                   [[PStr "01"; PInt 3]; [PStr "01.0101"; PInt 8]; [PStr "99"; PInt 3]]))
  ∧ clean Examples.ipeds
      (Build ["CIPCODE"; "CTOTALT"]%string
         [[PStr "01"; PInt 3]; [PStr "01.0101"; PInt 8]; [PStr "99"; PInt 3]])
      "C2019_A" true true
    = Ret (Build ["CIP Code"; "Grand total"]%string
             [[PStr "01"; PInt 3]; [PStr "Agricultural Business"; PInt 8];
              [PStr "99"; PInt 3]]).
Proof. vm_compute. repeat split. Qed.

End FinalStep.

(** ** Decoding and renaming twice *)

Section Idempotence.

Variable meta : gmap string (gmap pyval pyval).
Variable m : gmap string string.

(** No label is decoded again. *)
Hypothesis labels_fixed :
  forall var d k v, meta !! var = Some d -> d !! k = Some v -> replace_cell d v = v.

Lemma replace_cell_idem (var : string) (d : gmap pyval pyval) (v : pyval) :
  meta !! var = Some d -> replace_cell d (replace_cell d v) = replace_cell d v.
Proof.
  intros Hd. unfold replace_cell at 2 3.
  destruct (d !! v) as [lab|] eqn:Hv; simpl.
  - exact (labels_fixed var d v lab Hd Hv).
  - unfold replace_cell. rewrite Hv. reflexivity.
Qed.

Lemma replace_row_idem (cols : list string) :
  forall r, replace_row meta cols (replace_row meta cols r) = replace_row meta cols r.
Proof.
  induction cols as [|c cols IH]; intros [|v r]; simpl; try reflexivity.
  rewrite IH. f_equal.
  destruct (meta !! c) as [d|] eqn:Hd; [|reflexivity].
  exact (replace_cell_idem c d v Hd).
Qed.

Lemma replace_idem (df : frame) :
  Frame.replace meta (Frame.replace meta df) = Frame.replace meta df.
Proof.
  unfold Frame.replace. simpl. f_equal.
  rewrite <- list_fmap_compose. apply list_fmap_ext.
  intros i r _. simpl. apply replace_row_idem.
Qed.

(** No title is renamed again. *)
Hypothesis titles_fixed : forall c t, m !! c = Some t -> default t (m !! t) = t.

Lemma rename_idem (df : frame) :
  Frame.rename m (Frame.rename m df) = Frame.rename m df.
Proof.
  unfold Frame.rename. simpl. f_equal.
  rewrite <- list_fmap_compose. apply list_fmap_ext.
  intros i c _. simpl.
  destruct (m !! c) as [t|] eqn:Hc; simpl.
  - exact (titles_fixed c t Hc).
  - rewrite Hc. reflexivity.
Qed.

(** No title is the name of a decoded variable. *)
Hypothesis titles_undecoded : forall c t, m !! c = Some t -> t ≠ c -> meta !! t = None.

Lemma replace_row_renamed (cols : list string) :
  forall r,
    replace_row meta ((fun c => default c (m !! c)) <$> cols) (replace_row meta cols r)
    = replace_row meta cols r.
Proof.
  induction cols as [|c cols IH]; intros [|v r]; simpl; try reflexivity.
  rewrite IH. f_equal.
  destruct (m !! c) as [t|] eqn:Hc; simpl.
  - destruct (decide (t = c)) as [->|Hne].
    + destruct (meta !! c) as [d|] eqn:Hd; [|reflexivity].
      exact (replace_cell_idem c d v Hd).
    + rewrite (titles_undecoded c t Hc Hne). reflexivity.
  - destruct (meta !! c) as [d|] eqn:Hd; [|reflexivity].
    exact (replace_cell_idem c d v Hd).
Qed.

Lemma replace_renamed (df : frame) :
  Frame.replace meta (Frame.rename m (Frame.replace meta df))
  = Frame.rename m (Frame.replace meta df).
Proof.
  unfold Frame.replace, Frame.rename. simpl. f_equal.
  rewrite <- list_fmap_compose. apply list_fmap_ext.
  intros i r _. simpl. apply replace_row_renamed.
Qed.

End Idempotence.

(** C9, as amended: [clean] applied twice with the same options gives
    what it gives applied once, provided that, for the options that are
    set, no label of a variable is itself a code of that variable, no
    title of the table is itself the name of a variable of the table with
    another title, and (when both are set) no title is the name of a
    variable that has labels. *)
Theorem clean_idempotent (self : handler) (df : frame) (name : string) (rp rn : bool) :
  (rp = true -> forall var d k v,
      metadata self !! var = Some d -> d !! k = Some v -> replace_cell d v = v) ->
  (rn = true -> forall vn m c t,
      varnames self = Some vn -> vn !! name = Some m -> m !! c = Some t ->
      default t (m !! t) = t) ->
  (rp = true -> rn = true -> forall vn m c t,
      varnames self = Some vn -> vn !! name = Some m -> m !! c = Some t -> t ≠ c ->
      metadata self !! t = None) ->
  obind (clean self df name rp rn) (fun once => clean self once name rp rn)
  = clean self df name rp rn.
Proof.
  intros Hlab Htit Hboth. unfold clean.
  destruct rn.
  - destruct (varnames self) as [vn|] eqn:Hvn; [|reflexivity].
    destruct (vn !! name) as [m|] eqn:Hm; [|reflexivity].
    simpl. f_equal. destruct rp.
    + rewrite (replace_renamed (metadata self) m (Hlab eq_refl)
                 (fun c t => Hboth eq_refl eq_refl vn m c t eq_refl Hm)).
      apply rename_idem. exact (fun c t => Htit eq_refl vn m c t eq_refl Hm).
    + apply rename_idem. exact (fun c t => Htit eq_refl vn m c t eq_refl Hm).
  - destruct rp; simpl; [|reflexivity].
    f_equal. apply replace_idem. exact (Hlab eq_refl).
Qed.

Lemma clean_idempotent_witness :
  obind (clean Examples.ipeds Examples.c2019_a "C2019_A" true true)
    (fun once => clean Examples.ipeds once "C2019_A" true true)
  = clean Examples.ipeds Examples.c2019_a "C2019_A" true true.
Proof.
  apply clean_idempotent.
  - intros _ var d k v Hd Hk.
    change (Examples.labels !! var = Some d) in Hd. unfold Examples.labels in Hd.
    apply lookup_singleton_Some in Hd as [<- <-].
    apply lookup_singleton_Some in Hk as [<- <-]. reflexivity.
  - intros _ vn m c t Hvn Hm Hc.
    injection Hvn as <-. unfold Examples.titles in Hm.
    apply lookup_singleton_Some in Hm as [_ <-].
    apply lookup_insert_Some in Hc as [[<- <-]|[_ Hc]]; [reflexivity|].
    apply lookup_singleton_Some in Hc as [<- <-]. reflexivity.
  - intros _ _ vn m c t Hvn Hm Hc _.
    injection Hvn as <-. unfold Examples.titles in Hm.
    apply lookup_singleton_Some in Hm as [_ <-].
    apply lookup_insert_Some in Hc as [[<- <-]|[_ Hc]]; [reflexivity|].
    apply lookup_singleton_Some in Hc as [<- <-]. reflexivity.
Defined.

(** C9, as stated, fails: where the title of [A] is [B] and [B] is the
    name of a variable whose title is [C], the first [clean] turns the
    column [A] into [B] and the second turns it into [C]. *)
Lemma clean_twice_renames_again :
  clean Examples.chained (Build ["A"%string] [[PInt 1]]) "T" false true
  = Ret (Build ["B"%string] [[PInt 1]])
  ∧ obind (clean Examples.chained (Build ["A"%string] [[PInt 1]]) "T" false true)
      (fun once => clean Examples.chained once "T" false true)
    = Ret (Build ["C"%string] [[PInt 1]]).
Proof. vm_compute. split; reflexivity. Qed.

(** ** The crosswalk with a list-encoded key *)

Section Crosswalk.

Import Rosetta Spec.

Lemma dedup_spec (l : list (list pyval)) :
  forall seen,
    NoDup (dedup seen l)
    ∧ forall r, r ∈ dedup seen l <-> r ∈ l ∧ r ∉ seen.
Proof.
  induction l as [|x l IH]; intros seen; simpl.
  - split; [constructor|]. intros r. rewrite elem_of_nil. tauto.
  - destruct (decide (x ∈ seen)) as [Hx|Hx].
    + destruct (IH seen) as [Hnd Hin]. split; [exact Hnd|].
      intros r. rewrite Hin, elem_of_cons. split; [tauto|].
      intros [[->|Hr] Hs]; [contradiction|tauto].
    + destruct (IH (x :: seen)) as [Hnd Hin]. split.
      * constructor; [|exact Hnd]. rewrite Hin, elem_of_cons. tauto.
      * intros r. rewrite !elem_of_cons, Hin, elem_of_cons.
        destruct (decide (r = x)) as [->|Hne]; tauto.
Qed.









End Crosswalk.

(** * Further properties of the handlers *)

(** ** Queries *)

Section Select.


(** X2: with [keep_geography] set and no geography filter,
    [school_query] never returns a table: for an invalid [how] it returns
    nothing, and otherwise it raises, because the geography columns it
    would join are bound only under a filter. *)
Theorem school_query_geography_needs_filter (self : handler) lvl cipcode majornum unitid
    how rn lb (kg : string) cg (w : world) :
  ∃ w',
    (how_variables how = None
     ∧ school_query self None None None lvl cipcode majornum unitid how rn lb (Some kg) cg w
       = (Ret None, w'))
    ∨ (how_variables how ≠ None
       ∧ ∃ e, school_query self None None None lvl cipcode majornum unitid how rn lb
                (Some kg) cg w
              = (Raise e, w')).
Proof.
  destruct (how_variables how) as [vars|] eqn:Hhow.
  - destruct (school_query self None None None lvl cipcode majornum unitid how rn lb
                (Some kg) cg w) as [[r|e] w'] eqn:H.
    + exfalso. unfold school_query, school_query_rows in H. rewrite Hhow in H.
      apply bind_ret_inv in H as (awd & w1 & _ & H).
      apply bind_ret_inv in H as (awd2 & w2 & _ & H).
      destruct awd2; discriminate.
    + exists w'. right. split; [discriminate|]. exists e. reflexivity.
  - eexists. left. split; [reflexivity|].
    unfold school_query, school_query_rows. rewrite Hhow. reflexivity.
Qed.

End Select.

(** ** Running computations forward *)

Section Forward.

Context {S : Type}.

Lemma bind_run {A B} (m : M S A) (f : A -> M S B) (s s1 : S) (a : A) :
  m s = (Ret a, s1) -> (m ≫= f) s = f a s1.
Proof. unfold mbind, M_bind. intros ->. reflexivity. Qed.

Lemma bind_raise {A B} (m : M S A) (f : A -> M S B) (s s1 : S) (e : exn) :
  m s = (Raise e, s1) -> (m ≫= f) s = (Raise e, s1).
Proof. unfold mbind, M_bind. intros ->. reflexivity. Qed.

End Forward.

(** ** A code that cannot be normalised *)

Section PartialNormalisation.




End PartialNormalisation.

(** ** Codes already in canonical form *)

Section Canonical.

Import Spec.

Lemma append_nil_r (a : string) : a +:+ EmptyString = a.
Proof. induction a as [|c a IH]; [reflexivity|]. change (String c (a +:+ "") = String c a). congruence. Qed.

Lemma append_assoc (a b c : string) : (a +:+ b) +:+ c = a +:+ (b +:+ c).
Proof.
  induction a as [|x a IH]; [reflexivity|].
  change (String x ((a +:+ b) +:+ c) = String x (a +:+ (b +:+ c))). congruence.
Qed.

Lemma prefix_nil (s : string) : String.prefix EmptyString s = true.
Proof. destruct s; reflexivity. Qed.

Lemma digit_no_dot (c : ascii) (s : string) :
  is_digit c = true -> String.prefix "." (String c s) = false.
Proof.
  destruct c as [[] [] [] [] [] [] [] []]; intros Hc; try discriminate Hc; reflexivity.
Qed.

Lemma split_go_digits (a : string) :
  forall cur, all_digits a = true -> split_go "." 0 cur a = [cur +:+ a].
Proof.
  induction a as [|c a IH]; intros cur Ha.
  - rewrite append_nil_r. reflexivity.
  - simpl in Ha. apply andb_true_iff in Ha as [Hc Ha].
    cbn [split_go]. rewrite (digit_no_dot c a Hc), (IH _ Ha), append_assoc.
    reflexivity.
Qed.

Lemma split_go_digits_dot (a f : string) :
  forall cur,
    all_digits a = true ->
    split_go "." 0 cur (a +:+ String "." f) = (cur +:+ a) :: split_go "." 0 EmptyString f.
Proof.
  induction a as [|c a IH]; intros cur Ha.
  - rewrite append_nil_r. change ("" +:+ String "." f) with (String "." f).
    cbn [split_go]. simpl String.prefix. rewrite prefix_nil. reflexivity.
  - simpl in Ha. apply andb_true_iff in Ha as [Hc Ha].
    change (String c a +:+ String "." f) with (String c (a +:+ String "." f)).
    cbn [split_go]. rewrite (digit_no_dot c _ Hc), (IH _ Ha), append_assoc.
    reflexivity.
Qed.

Lemma two_digits_read (n : Z) :
  0 <= n <= 99 ->
  all_digits (two_digits n) = true ∧ int_of_str (two_digits n) = Some n
  ∧ normalize_code (PInt n) = Ret (two_digits n).
Proof.
  intros Hn.
  apply (below_100 n (fun z => all_digits (two_digits z) = true
                               ∧ int_of_str (two_digits z) = Some z
                               ∧ normalize_code (PInt z) = Ret (two_digits z)) Hn).
  intros k Hk.
  do 100 (destruct k as [|k]; [vm_compute; auto|]).
  lia.
Qed.

(** X4: a code already in canonical form is left as it is: an integer of
    0 to 99 gives its two digits, and the text of two digits, alone or
    followed by a dot and digits, is normalised to itself. *)
Theorem normalize_code_fixes_canonical (n : Z) (f : string) :
  0 <= n <= 99 ->
  all_digits f = true ->
  normalize_code (PInt n) = Ret (two_digits n)
  ∧ normalize_code (PStr (two_digits n)) = Ret (two_digits n)
  ∧ normalize_code (PStr (two_digits n +:+ "." +:+ f))
    = Ret (two_digits n +:+ "." +:+ f).
Proof.
  intros Hn Hf.
  destruct (two_digits_read n Hn) as (Hdig & Hint & Hnum).
  split; [exact Hnum|]. split.
  - unfold normalize_code, split. cbn [str].
    rewrite (split_go_digits _ _ Hdig). cbn [String.append].
    change (EmptyString +:+ two_digits n) with (two_digits n).
    rewrite Hint, (format_02d_two_digits n Hn), append_nil_r. reflexivity.
  - unfold normalize_code, split. cbn [str].
    change ("." +:+ f) with (String "." f).
    rewrite (split_go_digits_dot _ _ _ Hdig), (split_go_digits _ _ Hf).
    change (EmptyString +:+ two_digits n) with (two_digits n).
    change (EmptyString +:+ f) with f.
    rewrite Hint, (format_02d_two_digits n Hn). reflexivity.
Qed.

Lemma normalize_code_fixes_canonical_witness :
  normalize_code (PInt 1) = Ret "01"%string
  ∧ normalize_code (PStr "01") = Ret "01"%string
  ∧ normalize_code (PStr "01.0101") = Ret "01.0101"%string.
Proof.
  exact (normalize_code_fixes_canonical 1 "0101" ltac:(lia) eq_refl).
Defined.

End Canonical.

(** ** Directory names and versions *)

Section DirectoryVersion.

Import ONET ONETData.

Lemma prefix_cons (a b : ascii) (s1 s2 : string) :
  String.prefix (String a s1) (String b s2) = Ascii.eqb a b && String.prefix s1 s2.
Proof.
  cbn [String.prefix]. destruct (ascii_dec a b) as [->|Hne].
  - rewrite Ascii.eqb_refl. reflexivity.
  - apply Ascii.eqb_neq in Hne. rewrite Hne. reflexivity.
Qed.

Lemma version_char_tests (c : ascii) :
  version_char c = true -> Ascii.eqb "d" c = false ∧ Ascii.eqb "t" c = false.
Proof.
  destruct c as [[] [] [] [] [] [] [] []]; intros Hc; try discriminate Hc;
    split; reflexivity.
Qed.

Lemma digit_tests (c : ascii) :
  is_digit c = true -> Ascii.eqb "_" c = false ∧ Ascii.eqb c "_" = false.
Proof.
  destruct c as [[] [] [] [] [] [] [] []]; intros Hc; try discriminate Hc;
    split; reflexivity.
Qed.

Lemma digits_version_text (a : string) : all_digits a = true -> version_text a = true.
Proof.
  induction a as [|c a IH]; [reflexivity|]. simpl.
  intros [Hc Ha]%andb_true_iff. unfold version_char. rewrite Hc, (IH Ha). reflexivity.
Qed.

Lemma version_text_app (a b : string) :
  version_text a = true -> version_text b = true -> version_text (a +:+ b) = true.
Proof.
  induction a as [|c a IH]; intros Ha Hb; [exact Hb|].
  change (String c a +:+ b) with (String c (a +:+ b)). simpl in *.
  apply andb_true_iff in Ha as [Hc Ha]. rewrite Hc, (IH Ha Hb). reflexivity.
Qed.

Lemma split_go_suffix_no_db (cur : string) :
  split_go "db_" 0 cur "_text" = [cur +:+ "_text"].
Proof.
  repeat (cbn [split_go]; rewrite prefix_cons;
          match goal with
          | |- context [Ascii.eqb ?a ?b] =>
              let v := eval vm_compute in (Ascii.eqb a b) in
              change (Ascii.eqb a b) with v
          end; cbn [andb]).
  cbn [split_go]. rewrite !append_assoc. reflexivity.
Qed.

(** A version text followed by [_text] holds no [db_]. *)
Lemma split_go_no_db (u : string) :
  forall cur,
    version_text u = true ->
    split_go "db_" 0 cur (u +:+ "_text") = [cur +:+ u +:+ "_text"].
Proof.
  induction u as [|c u IH]; intros cur Hu.
  - apply split_go_suffix_no_db.
  - simpl in Hu. apply andb_true_iff in Hu as [Hc Hu].
    change (String c u +:+ "_text") with (String c (u +:+ "_text")).
    cbn [split_go]. rewrite prefix_cons.
    rewrite (proj1 (version_char_tests c Hc)). cbn [andb].
    rewrite (IH _ Hu), append_assoc. reflexivity.
Qed.

Lemma no_text_at (u : string) :
  version_text u = true -> String.prefix "text" (u +:+ "_text") = false.
Proof.
  destruct u as [|c u]; [reflexivity|]. intros Hu.
  cbn [version_text] in Hu. apply andb_true_iff in Hu as [Hc _].
  change (String c u +:+ "_text") with (String c (u +:+ "_text")).
  rewrite prefix_cons, (proj2 (version_char_tests c Hc)). reflexivity.
Qed.

(** The piece before the first [_text] is the version text. *)
Lemma split_go_text (u : string) :
  forall cur,
    version_text u = true ->
    split_go "_text" 0 cur (u +:+ "_text") = [cur +:+ u; EmptyString].
Proof.
  induction u as [|c u IH]; intros cur Hu.
  - rewrite append_nil_r. reflexivity.
  - pose proof Hu as Hcu. simpl in Hcu. apply andb_true_iff in Hcu as [Hc Hu'].
    change (String c u +:+ "_text") with (String c (u +:+ "_text")).
    cbn [split_go]. rewrite prefix_cons, (no_text_at u Hu'), andb_false_r.
    rewrite (IH _ Hu'), append_assoc. reflexivity.
Qed.

Lemma dots_after_digits (a r : string) :
  all_digits a = true ->
  underscores_to_dots (a +:+ r) = a +:+ underscores_to_dots r.
Proof.
  induction a as [|c a IH]; intros Ha; [reflexivity|].
  simpl in Ha. apply andb_true_iff in Ha as [Hc Ha].
  change (String c a +:+ r) with (String c (a +:+ r)).
  cbn [underscores_to_dots]. rewrite (IH Ha).
  rewrite (proj2 (digit_tests c Hc)). reflexivity.
Qed.

(** X5: the directory [db_A_B_text], for runs of digits [A] and [B], is
    read as the version that the text [A.B] denotes. *)
Theorem directory_version_of_release (a b : string) (q : Q) :
  all_digits a = true ->
  all_digits b = true ->
  float_of_str (a +:+ "." +:+ b) = Some q ->
  directory_version ("db_" +:+ a +:+ "_" +:+ b +:+ "_text") = Ret q.
Proof.
  intros Ha Hb Hq.
  assert (Hu : version_text (a +:+ "_" +:+ b) = true).
  { apply version_text_app; [apply digits_version_text, Ha|].
    change ("_" +:+ b) with (String "_" b). simpl.
    apply digits_version_text, Hb. }
  unfold directory_version, split.
  change ("db_" +:+ a +:+ "_" +:+ b +:+ "_text")
    with (String "d" (String "b" (String "_" (a +:+ "_" +:+ b +:+ "_text")))).
  cbn [split_go]. rewrite !prefix_cons, prefix_nil.
  change (Ascii.eqb "d" "d") with true. change (Ascii.eqb "b" "b") with true.
  change (Ascii.eqb "_" "_") with true. cbn [andb].
  change (String.length "db_" - 1)%nat with 2%nat. cbn [split_go].
  replace (a +:+ "_" +:+ b +:+ "_text") with ((a +:+ "_" +:+ b) +:+ "_text")
    by (rewrite !append_assoc; reflexivity).
  rewrite (split_go_no_db _ _ Hu).
  change (EmptyString +:+ (a +:+ "_" +:+ b) +:+ "_text")
    with ((a +:+ "_" +:+ b) +:+ "_text").
  rewrite (split_go_text _ _ Hu).
  change (EmptyString +:+ a +:+ "_" +:+ b) with (a +:+ "_" +:+ b).
  rewrite (dots_after_digits a _ Ha).
  change ("_" +:+ b) with (String "_" b). cbn [underscores_to_dots].
  change (Ascii.eqb "_" "_") with true. cbn iota.
  replace (underscores_to_dots b) with b.
  - change (String "." b) with ("." +:+ b). rewrite Hq. reflexivity.
  - rewrite <- (append_nil_r b) at 2. rewrite (dots_after_digits b _ Hb).
    rewrite append_nil_r. reflexivity.
Qed.

Lemma directory_version_of_release_witness :
  directory_version "db_25_0_text" = Ret (250 # 10).
Proof.
  exact (directory_version_of_release "25" "0" (250 # 10) eq_refl eq_refl eq_refl).
Defined.

End DirectoryVersion.

(** ** Constructing the O*NET handler *)

Section Construction.

Import ONET ONETData.

(** X6: on a machine without an unpacked release (no target directory,
    or none but archives in it) the constructor asks for the release
    page, and when that page announces any version above 0 and links an
    archive, construction fails with the [AttributeError] of line 732:
    nothing is downloaded and the instance keeps the class defaults. *)
Theorem init_without_local_copy_raises (net : remote) (exists_ update : bool) (w : world)
    (p : page) (v : Q) (href : string) :
  exists_ = false ∨ unpacked w = [] ->
  listing net = Ret p ->
  heading_version p = Ret v ->
  Qle_bool v 0 = false ->
  archive_link p = Ret href ->
  init net exists_ update w
  = (Raise (AttributeError "'ONETHandler' object has no attribute 'donwload_data'"),
     World None 0 None (zips w) (extracted w)
       (requested w ++ ["https://www.onetcenter.org/db_releases.html"%string])
       (stdout w)).
Proof.
  intros Hlocal Hpage Hv Hnew Hlink.
  assert (Hupdate :
    get_new_database net
      (World None 0 None (zips w) (extracted w) (requested w) (stdout w))
    = (Raise (AttributeError "'ONETHandler' object has no attribute 'donwload_data'"),
       World None 0 None (zips w) (extracted w)
         (requested w ++ ["https://www.onetcenter.org/db_releases.html"%string])
         (stdout w))).
  { unfold get_new_database, mbind, M_bind, get_listing, lift.
    rewrite Hpage, Hv. simpl. rewrite Hnew, Hlink. reflexivity. }
  unfold init, class_defaults, get_self.
  cbv beta delta [mbind M_bind] iota.
  destruct exists_; cbn [negb].
  - destruct Hlocal as [?|Hnone]; [discriminate|].
    change (unpacked (World None 0 None (zips w) (extracted w) (requested w) (stdout w)))
      with (unpacked w).
    rewrite Hnone. cbn [length]. rewrite decide_False by lia.
    cbv beta delta [mret M_ret] iota. exact Hupdate.
  - cbv beta delta [mret M_ret] iota. exact Hupdate.
Qed.

Lemma init_without_local_copy_raises_witness :
  (init Examples.site false false (World None 0 None ∅ [] [] [])).1
  = Raise (AttributeError "'ONETHandler' object has no attribute 'donwload_data'").
Proof.
  rewrite (init_without_local_copy_raises Examples.site false false
             (World None 0 None ∅ [] [] []) Examples.release_page (280 # 10)
             "/dl_files/database/db_28_0_text.zip"
             (or_introl eq_refl) eq_refl eq_refl eq_refl eq_refl).
  reflexivity.
Defined.

(** X7: with an unpacked release in the target directory and no update
    asked for, the constructor contacts no site: whatever the instance
    held before, it adopts the directory with the greatest name, its
    path and the version read from that name, and nothing else
    changes. *)
Theorem init_adopts_newest_directory (net : remote) (w : world) (cur : string) (v : Q) :
  unpacked w ≠ [] ->
  max_str (unpacked w) = Ret cur ->
  directory_version cur = Ret v ->
  init net true false w
  = (Ret tt,
     World (Some cur) v (Some ("D:/data/ONET_database/" +:+ cur)) (zips w) (extracted w)
       (requested w) (stdout w)).
Proof.
  intros Hsome Hmax Hv.
  unfold init, class_defaults, get_self, adopt_local, get_self, lift, set_current,
    set_version.
  cbv beta delta [mbind M_bind mret M_ret] iota. cbn [negb].
  change (unpacked (World None 0 None (zips w) (extracted w) (requested w) (stdout w)))
    with (unpacked w).
  rewrite decide_True by (destruct (unpacked w); [contradiction|simpl; lia]).
  cbv beta delta [mbind M_bind mret M_ret] iota.
  change (unpacked (World None 0 None (zips w) (extracted w) (requested w) (stdout w)))
    with (unpacked w).
  rewrite Hmax, Hv. reflexivity.
Qed.

Lemma init_adopts_newest_directory_witness :
  init Examples.site true false
    (World (Some "stale"%string) (99 # 1) None ∅ ["db_24_3_text"; "db_25_0_text"]%string
       [] [])
  = (Ret tt,
     World (Some "db_25_0_text"%string) (250 # 10)
       (Some "D:/data/ONET_database/db_25_0_text"%string) ∅
       ["db_24_3_text"; "db_25_0_text"]%string [] []).
Proof.
  apply init_adopts_newest_directory.
  - intros H. vm_compute in H. discriminate H.
  - reflexivity.
  - reflexivity.
Defined.


End Construction.

(** ** Reading O*NET tables *)

Section Tables.

Import ONET ONETData.

Variable prod : list pyval -> outcome pyval.
Variable pivot : frame -> string -> string -> string -> outcome frame.
Variable files : string -> outcome frame.

Lemma get_table_unknown (table : string) (soc : list pyval) (w : world) :
  index !! table = None ->
  get_table files table soc w
  = (Ret None,
     World (current w) (version w) (current_path w) (zips w) (extracted w) (requested w)
       (stdout w ++ ["'" +:+ table +:+ "'";
                     table +:+ " not valid table name" +:+ nl
                     +:+ "valid table name shortand:" +:+ nl +:+ index_text])).
Proof.
  intros Hkey. unfold get_table. rewrite Hkey.
  unfold mbind, M_bind, print, mret, M_ret. cbn.
  rewrite <- app_assoc. reflexivity.
Qed.

(** X9: [get_table] reads the file that the index names for the key,
    under the current path, and changes nothing.  Without a code filter
    it returns the table as read; with one it keeps, in their order, the
    rows whose occupation code is in the filter.  An error of the read is
    not caught. *)
Theorem get_table_reads_indexed_file (table name : string) (w : world) :
  index !! table = Some name ->
  (forall e, files (table_path w name) = Raise e ->
             forall soc, get_table files table soc w = (Raise e, w))
  ∧ (forall tab, files (table_path w name) = Ret tab ->
       get_table files table [] w = (Ret (Some tab), w)
       ∧ forall soc i,
           soc ≠ [] ->
           col_index soc_column (columns tab) = Some i ->
           ∃ kept,
             get_table files table soc w = (Ret (Some kept), w)
             ∧ columns kept = columns tab
             ∧ rows kept `sublist_of` rows tab
             ∧ forall r, r ∈ rows kept <-> r ∈ rows tab ∧ cell i r ∈ soc).
Proof.
  intros Hkey. unfold table_path. split.
  - intros e Hfile soc. unfold get_table. rewrite Hkey.
    unfold mbind, M_bind, lift. rewrite Hfile. reflexivity.
  - intros tab Hfile. split.
    + unfold get_table. rewrite Hkey.
      unfold mbind, M_bind, lift. rewrite Hfile. reflexivity.
    + intros soc i Hsoc Hi. unfold get_table. rewrite Hkey.
      unfold mbind, M_bind, lift. rewrite Hfile.
      rewrite decide_False by exact Hsoc. rewrite Hi.
      eexists. split; [reflexivity|]. split; [reflexivity|]. split.
      * apply filter_sublist.
      * intros r. rewrite select_rows_spec, bool_decide_eq_true. reflexivity.
Qed.

Lemma print_then_none (msg : string) (w w' : world) (r : option frame) :
  (print msg;; mret None) w = (Ret r, w') -> r = None.
Proof.
  intros H. apply bind_ret_inv in H as ([] & w1 & _ & H).
  apply mret_inv in H as [H _]. congruence.
Qed.

Lemma quant_layout_invalid (q : frame) (how : string) (w w' : world) (r : option frame) :
  how ∉ ["long"; "wide_clean"; "wide_raw"]%string ->
  quant_layout pivot q how w = (Ret r, w') -> r = None.
Proof.
  intros Hhow H. unfold quant_layout in H.
  rewrite !decide_False in H
    by (intros ->; apply Hhow; rewrite !elem_of_cons; auto).
  exact (print_then_none _ _ _ _ H).
Qed.

(** X10: [quant_view] never lets an exception out, whatever the key, the
    filter, the file store and the options are; and it returns nothing
    when the key is not in the index, when the scale is none of
    [product], [IM], [LV], or when the layout is none of [long],
    [wide_clean], [wide_raw]. *)
Theorem quant_view_contained (table : string) (soc : list pyval) (scale how : string)
    (w : world) :
  ∃ r w',
    quant_view prod pivot files table soc scale how w = (Ret r, w')
    ∧ (index !! table = None -> r = None)
    ∧ (scale ∉ ["product"; "IM"; "LV"]%string -> r = None)
    ∧ (how ∉ ["long"; "wide_clean"; "wide_raw"]%string -> r = None).
Proof.
  unfold quant_view, try_except.
  match goal with
  | |- context [match ?m w with _ => _ end] => destruct (m w) as [[r|e] w1] eqn:Hrun
  end.
  2: { eexists _, _. split; [reflexivity|]. auto. }
  exists r, w1. split; [reflexivity|].
  apply bind_ret_inv in Hrun as (quant & w2 & Hget & Hrun).
  destruct (decide (scale ≠ "product"%string)) as [Hs|Hs];
    [destruct (decide (scale ∈ ["IM"; "LV"]%string)) as [Hin|Hin]|].
  - split; [|split].
    + intros Hkey. rewrite (get_table_unknown table soc w Hkey) in Hget.
      injection Hget as <- <-. discriminate.
    + intros Hscale. exfalso. apply Hscale. rewrite elem_of_cons. auto.
    + intros Hhow. destruct quant as [q|]; [|discriminate].
      destruct (col_index "Scale ID" (columns q)); [|discriminate].
      exact (quant_layout_invalid _ _ _ _ _ Hhow Hrun).
  - pose proof (print_then_none _ _ _ _ Hrun). auto.
  - split; [|split].
    + intros Hkey. rewrite (get_table_unknown table soc w Hkey) in Hget.
      injection Hget as <- <-. discriminate.
    + intros Hscale. exfalso. destruct (decide (scale = "product"%string)) as [->|Hne].
      * apply Hscale. rewrite elem_of_cons. auto.
      * contradiction.
    + intros Hhow. destruct quant as [q|]; [|discriminate].
      apply bind_ret_inv in Hrun as (g & w4 & _ & Hrun).
      exact (quant_layout_invalid _ _ _ _ _ Hhow Hrun).
Qed.

(** X11: [qual_view] has no such guard.  For a key that is not in the
    index the long layout returns nothing, and so does the wide layout
    without a pivot column, but the wide layout with a pivot column
    raises a [TypeError]: the marker column is assigned on the nothing
    that [get_table] returned. *)
Theorem qual_view_unknown_table (table : string) (soc : list pyval) (c : string)
    (w : world) :
  index !! table = None ->
  ∃ w',
    get_table files table soc w = (Ret None, w')
    ∧ qual_view pivot files table soc "long" (Some c) w = (Ret None, w')
    ∧ (qual_view pivot files table soc "wide" None w).1 = Ret None
    ∧ qual_view pivot files table soc "wide" (Some c) w
      = (Raise (TypeError "'NoneType' object does not support item assignment"), w').
Proof.
  intros Hkey. eexists. split; [apply (get_table_unknown table soc w Hkey)|].
  unfold qual_view.
  rewrite !(bind_run _ _ _ _ _ (get_table_unknown table soc w Hkey)).
  repeat split.
Qed.

End Tables.

Lemma get_table_reads_indexed_file_witness :
  ONETData.get_table MoreExamples.files "sk" [PStr "11-2011.00"] Examples.local_25
  = (Ret (Some (Build (columns MoreExamples.skills)
                  [[PStr "11-2011.00"; PStr "2.A.1.a"; PStr "Reading Comprehension";
                    PStr "IM"; PFloat "3.88"]])),
     Examples.local_25).
Proof.
  destruct (proj2 (proj2 (get_table_reads_indexed_file MoreExamples.files "sk"
                            "Skills.txt" Examples.local_25 eq_refl)
                     MoreExamples.skills eq_refl)
              [PStr "11-2011.00"] O ltac:(discriminate) eq_refl)
    as (kept & Hrun & _).
  rewrite Hrun. vm_compute in Hrun. injection Hrun as <-. reflexivity.
Defined.

Lemma qual_view_unknown_table_witness :
  (ONETData.qual_view MoreExamples.no_pivot MoreExamples.files "skills" [] "wide"
     (Some "Element Name"%string) Examples.local_25).1
  = Raise (TypeError "'NoneType' object does not support item assignment").
Proof.
  destruct (qual_view_unknown_table MoreExamples.no_pivot MoreExamples.files "skills" []
              "Element Name" Examples.local_25 eq_refl)
    as (w' & _ & _ & _ & Hwide).
  rewrite Hwide. reflexivity.
Defined.

(** ** Repeated and empty crosswalk rows *)

Section CrosswalkEdges.

Import Rosetta Spec.

Lemma dedup_seen_all (l : list (list pyval)) :
  forall seen, (forall x, x ∈ l -> x ∈ seen) -> dedup seen l = [].
Proof.
  induction l as [|x l IH]; intros seen Hall; [reflexivity|].
  simpl. rewrite decide_True by (apply Hall; left).
  apply IH. intros y Hy. apply Hall. right. exact Hy.
Qed.

Lemma dedup_app_absorbed (l l' : list (list pyval)) :
  forall seen,
    (forall x, x ∈ l' -> x ∈ l ∨ x ∈ seen) ->
    dedup seen (l ++ l') = dedup seen l.
Proof.
  induction l as [|x l IH]; intros seen Hall.
  - simpl. apply dedup_seen_all. intros y Hy.
    destruct (Hall y Hy) as [Hin|Hin]; [|exact Hin].
    apply elem_of_nil in Hin. contradiction.
  - simpl. destruct (decide (x ∈ seen)) as [Hx|Hx].
    + apply IH. intros y Hy. destruct (Hall y Hy) as [Hin|Hin]; [|auto].
      apply elem_of_cons in Hin as [->|Hin]; auto.
    + f_equal. apply IH. intros y Hy. destruct (Hall y Hy) as [Hin|Hin].
      * apply elem_of_cons in Hin as [->|Hin]; [right; left|left; exact Hin].
      * right. right. exact Hin.
Qed.

(** X12: rows of the crosswalk that repeat earlier rows change nothing:
    only the distinct pairs of the two keys, in the order of their first
    appearance, reach the join. *)
Theorem translate_ignores_repeated_rows (cols : list string) (rs rs' : list (list pyval))
    (data : frame) (left right : string) (data_2 : option frame) (how : join_kind) :
  (forall r, r ∈ rs' -> r ∈ rs) ->
  translate (Some (Build cols (rs ++ rs'))) data left right data_2 how
  = translate (Some (Build cols rs)) data left right data_2 how.
Proof.
  intros Hrep. unfold translate, project. cbn [columns rows].
  destruct (col_indices [left; right] cols) as [ix|e]; [|reflexivity].
  cbn [obind]. unfold dropna, drop_duplicates, select_rows. cbn [columns rows].
  rewrite fmap_app, dedup_app_absorbed; [reflexivity|].
  intros x Hx. left. apply list_elem_of_fmap in Hx as (r & -> & Hr).
  apply list_elem_of_fmap. exists r. split; [reflexivity|]. apply Hrep, Hr.
Qed.

Lemma translate_ignores_repeated_rows_witness :
  translate
    (Some (Build ["other"; "cip_2020"]%string
             ([[PStr "X"; PStr "[11.01, 11.02]"]] ++ [[PStr "X"; PStr "[11.01, 11.02]"]])))
    Examples.data "other" "cip_2020" None Inner
  = Ret (Build ["other"; "wage"; "cip_2020"]%string
           [[PStr "X"; PInt 5; PFloat "11.01"]; [PStr "X"; PInt 5; PFloat "11.02"]]).
Proof.
  rewrite (translate_ignores_repeated_rows ["other"; "cip_2020"]%string
             [[PStr "X"; PStr "[11.01, 11.02]"]] [[PStr "X"; PStr "[11.01, 11.02]"]]
             Examples.data "other" "cip_2020" None Inner (fun r H => H)).
  reflexivity.
Defined.

Lemma explode_nothing (io ic : nat) (rs : list (list pyval)) :
  Forall (fun r => literal_eval (cell ic r) = Ret []) rs ->
  explode io ic rs = Ret [].
Proof.
  induction 1 as [|r rs Hr _ IH]; simpl; [reflexivity|].
  rewrite Hr, IH. reflexivity.
Qed.

(** X13: when no pair of the crosswalk has a member in its list (all
    lists empty, or no pair at all), the frame built from the expansion
    has no columns and [translate] raises a [KeyError] for the left key
    instead of returning an empty table. *)
Theorem translate_empty_expansion_raises (stone data pairs : frame) (left right : string)
    (data_2 : option frame) (how : join_kind) :
  left ≠ right ->
  left = "cip_2020"%string ∨ right = "cip_2020"%string ->
  project stone [left; right] = Ret pairs ->
  Forall (fun r => literal_eval (cell (1 - other_position left) r) = Ret [])
    (rows (dropna (drop_duplicates pairs))) ->
  translate (Some stone) data left right data_2 how = Raise (KeyError left).
Proof.
  intros Hne Hkey Hproj Hempty.
  unfold translate. rewrite Hproj. cbn [obind]. cbv zeta. unfold expand.
  rewrite bool_decide_eq_true_2 by exact Hkey.
  rewrite decide_False by exact Hne.
  fold (other_position left).
  rewrite (explode_nothing _ _ _ Hempty). cbn [obind].
  unfold merge. cbn [columns col_index].
  destruct (col_index left (columns data)); reflexivity.
Qed.

Lemma translate_empty_expansion_raises_witness :
  translate (Some (Build ["other"; "cip_2020"]%string [[PStr "X"; PStr "[]"]]))
    Examples.data "other" "cip_2020" None Inner
  = Raise (KeyError "other").
Proof.
  apply (translate_empty_expansion_raises _ _
           (Build ["other"; "cip_2020"]%string [[PStr "X"; PStr "[]"]])).
  - discriminate.
  - right. reflexivity.
  - reflexivity.
  - repeat constructor.
Defined.

End CrosswalkEdges.

(** ** The dictionaries loaded at connection *)

Section Dictionaries.

Import Catalog.

Lemma last_match_ext (p q : list pyval -> bool) (l : list (list pyval)) :
  (forall r, r ∈ l -> p r = q r) -> last_match p l = last_match q l.
Proof.
  induction l as [|x l IH]; intros Hpq; [reflexivity|]. simpl.
  rewrite IH by (intros r Hr; apply Hpq; right; exact Hr).
  rewrite (Hpq x) by left. reflexivity.
Qed.

Lemma last_match_filter (p q : list pyval -> bool) (l : list (list pyval)) :
  last_match p (List.filter q l) = last_match (fun r => q r && p r) l.
Proof.
  induction l as [|x l IH]; [reflexivity|]. simpl.
  destruct (q x) eqn:Hq; simpl; rewrite IH; [reflexivity|].
  destruct (last_match _ l); reflexivity.
Qed.

Lemma last_match_fmap (f : list pyval -> list pyval) (p : list pyval -> bool)
    (l : list (list pyval)) :
  last_match p (f <$> l) = f <$> last_match (fun r => p (f r)) l.
Proof.
  induction l as [|x l IH]; [reflexivity|].
  rewrite fmap_cons. simpl. rewrite IH.
  destruct (last_match (fun r => p (f r)) l); simpl; [reflexivity|].
  destruct (p (f x)); reflexivity.
Qed.

Lemma last_match_Some (p : list pyval -> bool) (l : list (list pyval)) (x : list pyval) :
  last_match p l = Some x -> x ∈ l ∧ p x = true.
Proof.
  induction l as [|y l IH]; [discriminate|]. simpl.
  destruct (last_match p l) as [z|].
  - intros [= ->]. destruct (IH eq_refl) as [Hin Hp]. split; [right; exact Hin|exact Hp].
  - destruct (p y) eqn:Hp; [|discriminate]. intros [= ->]. split; [left|exact Hp].
Qed.

Lemma last_match_is_Some (p : list pyval -> bool) (l : list (list pyval)) (x : list pyval) :
  x ∈ l -> p x = true -> is_Some (last_match p l).
Proof.
  induction l as [|y l IH]; intros Hin Hp; [apply elem_of_nil in Hin; contradiction|].
  simpl. apply elem_of_cons in Hin as [->|Hin].
  - destruct (last_match p l); [eauto|]. rewrite Hp. eauto.
  - destruct (IH Hin Hp) as [z ->]. eauto.
Qed.

(** A dictionary filled from rows answers with the last row of a key. *)
Lemma foldl_insert_lookup (rs : list (list pyval)) (k : pyval) :
  forall d0 : gmap pyval pyval,
    foldl (fun d r => <[cell 0 r := cell 1 r]> d) d0 rs !! k
    = match last_match (fun r => bool_decide (cell 0 r = k)) rs with
      | Some r => Some (cell 1 r)
      | None => d0 !! k
      end.
Proof.
  induction rs as [|r rs IH]; intros d0; [reflexivity|].
  simpl. rewrite IH.
  destruct (last_match (fun r0 => bool_decide (cell 0 r0 = k)) rs); [reflexivity|].
  rewrite lookup_insert. destruct (decide (cell 0 r = k)) as [Heq|Hne].
  - rewrite bool_decide_eq_true_2 by exact Heq. reflexivity.
  - rewrite bool_decide_eq_false_2 by exact Hne. reflexivity.
Qed.

Lemma pairs_dict_lookup (rs : list (list pyval)) (k : pyval) :
  pairs_dict rs !! k
  = cell 1 <$> last_match (fun r => bool_decide (cell 0 r = k)) rs.
Proof.
  unfold pairs_dict. rewrite foldl_insert_lookup.
  destruct (last_match _ rs); [reflexivity|apply lookup_empty].
Qed.

Lemma uniq_elem (l : list pyval) :
  forall seen v, v ∈ uniq seen l <-> v ∈ l ∧ v ∉ seen.
Proof.
  induction l as [|x l IH]; intros seen v; simpl.
  - rewrite elem_of_nil. tauto.
  - destruct (decide (x ∈ seen)) as [Hx|Hx].
    + rewrite IH, elem_of_cons. split; [tauto|].
      intros [[->|Hv] Hs]; [contradiction|tauto].
    + rewrite !elem_of_cons, IH, elem_of_cons.
      destruct (decide (v = x)) as [->|Hne]; tauto.
Qed.

Lemma filter_all {A} (l : list A) : List.filter (fun _ => true) l = l.
Proof. induction l as [|x l IH]; simpl; congruence. Qed.

(** The query [SELECT * FROM name] gives the table as it is stored. *)
Lemma exec_query_star (db : gmap string frame) (name : string) (values : frame) :
  db !! name = Some values ->
  exec_query db (Query ["*"%string] name []) = Ret values.
Proof.
  intros Hdb. unfold exec_query. cbn [q_table q_where q_vars]. rewrite Hdb.
  cbn [eval_where obind]. rewrite decide_True by reflexivity.
  unfold select_rows. rewrite filter_all. destruct values; reflexivity.
Qed.

Section Labels.

Variable values : frame.
Variables iv ic il : nat.
Hypothesis Hvar : col_index "varName" (columns values) = Some iv.
Hypothesis Hcode : col_index "Codevalue" (columns values) = Some ic.
Hypothesis Hlabel : col_index "valueLabel" (columns values) = Some il.

Lemma variable_labels_run (var : pyval) :
  variable_labels values var
  = Ret (pairs_dict
           ((fun r => [cell ic r; cell il r])
              <$> List.filter (fun r => negb (is_null var) && bool_decide (cell iv r = var))
                    (rows values))).
Proof.
  unfold variable_labels, rows_equal. rewrite Hvar. cbn [obind].
  unfold project, select_rows. cbn [columns rows col_indices].
  rewrite Hcode, Hlabel. reflexivity.
Qed.

Lemma load_labels_run (vars : list pyval) :
  forall acc,
    ∃ meta,
      load_labels values vars acc = Ret meta
      ∧ forall var,
          meta !! var
          = if decide (var ∈ vars)
            then Some (pairs_dict
                         ((fun r => [cell ic r; cell il r])
                            <$> List.filter
                                  (fun r => negb (is_null var)
                                            && bool_decide (cell iv r = var))
                                  (rows values)))
            else acc !! var.
Proof.
  induction vars as [|v vars IH]; intros acc.
  - exists acc. split; [reflexivity|]. intros var.
    rewrite decide_False by apply not_elem_of_nil. reflexivity.
  - cbn [load_labels]. rewrite variable_labels_run. cbn [obind].
    destruct (IH (<[v := pairs_dict
                          ((fun r => [cell ic r; cell il r])
                             <$> List.filter
                                   (fun r => negb (is_null v)
                                             && bool_decide (cell iv r = v))
                                   (rows values))]> acc)) as (meta & Hrun & Hlook).
    exists meta. split; [exact Hrun|]. intros var. rewrite Hlook.
    destruct (decide (var ∈ vars)) as [Hin|Hout].
    + rewrite decide_True by (right; exact Hin). reflexivity.
    + destruct (decide (var = v)) as [->|Hne].
      * rewrite decide_True by left. apply lookup_insert_eq.
      * rewrite decide_False by (rewrite elem_of_cons; tauto).
        apply lookup_insert_ne. congruence.
Qed.

End Labels.

(** X14: on a connected handler whose value-set table has the three
    columns, [get_metadata] sends one query and returns a dictionary
    that answers, for a variable and a code, with the label of the last
    row of the table that carries this variable and this code, and with
    nothing when there is no such row. *)
Theorem get_metadata_last_label (self : handler) (name : string)
    (db : gmap string frame) (values : frame) (iv ic il : nat) (w : world) :
  conn self = Some db ->
  db !! name = Some values ->
  col_index "varName" (columns values) = Some iv ->
  col_index "Codevalue" (columns values) = Some ic ->
  col_index "valueLabel" (columns values) = Some il ->
  ∃ meta,
    get_metadata self name w
    = (Ret (Some meta), World (queries w ++ [Query ["*"%string] name []]) (stdout w) (heap w))
    ∧ forall var code,
        lookup2 meta var code
        = cell il <$> last_match
                        (fun r => negb (is_null var) && bool_decide (cell iv r = var)
                                  && bool_decide (cell ic r = code))
                        (rows values).
Proof.
  intros Hconn Hdb Hvar Hcode Hlabel.
  destruct (load_labels_run values iv ic il Hvar Hcode Hlabel
              (uniq [] (cell iv <$> rows values)) ∅) as (meta & Hload & Hlook).
  exists meta. split.
  - unfold get_metadata, try_except, mbind, M_bind, read_sql_query, lift.
    rewrite Hconn, (exec_query_star db name values Hdb).
    unfold getcol. rewrite Hvar, Hload. reflexivity.
  - intros var code. unfold lookup2. rewrite Hlook.
    destruct (decide (var ∈ uniq [] (cell iv <$> rows values))) as [Hin|Hout].
    + cbn [mbind option_bind]. rewrite pairs_dict_lookup, last_match_fmap.
      rewrite last_match_filter. rewrite <- option_fmap_compose.
      destruct (last_match _ (rows values)); reflexivity.
    + rewrite lookup_empty. cbn [mbind option_bind].
      destruct (last_match _ (rows values)) as [r|] eqn:Hlast; [|reflexivity].
      exfalso. apply last_match_Some in Hlast as [Hr Hp].
      apply andb_true_iff in Hp as [Hp _]. apply andb_true_iff in Hp as [_ Hp].
      apply bool_decide_eq_true in Hp. apply Hout, uniq_elem.
      split; [|apply not_elem_of_nil]. rewrite <- Hp.
      apply list_elem_of_fmap. eauto.
Qed.

Lemma get_metadata_last_label_witness :
  ∃ meta,
    (get_metadata MoreExamples.catalog "valuesets19" Examples.fresh).1 = Ret (Some meta)
    ∧ lookup2 meta (PStr "SEX") (PInt 1) = Some (PStr "Male")
    ∧ lookup2 meta (PStr "SEX") (PInt 3) = None.
Proof.
  destruct (get_metadata_last_label MoreExamples.catalog "valuesets19"
              {[ "valuesets19"%string := MoreExamples.valuesets;
                 "vartable19"%string := MoreExamples.vartable ]}
              MoreExamples.valuesets 0 1 2 Examples.fresh
              eq_refl eq_refl eq_refl eq_refl eq_refl) as (meta & Hrun & Hlook).
  exists meta. rewrite Hrun. split; [reflexivity|].
  rewrite !Hlook. split; reflexivity.
Defined.

End Dictionaries.

Section Titles.

Import Catalog.

Variable rows3 : list (list pyval).

Lemma table_titles_run (tab : pyval) :
  table_titles (titles_frame rows3) tab = Ret (titles_dict rows3 tab).
Proof. reflexivity. Qed.

Lemma load_titles_run (tabs : list pyval) :
  forall acc,
    ∃ vn,
      load_titles (titles_frame rows3) tabs acc = Ret vn
      ∧ forall tab,
          vn !! tab = if decide (tab ∈ tabs) then Some (titles_dict rows3 tab) else acc !! tab.
Proof.
  induction tabs as [|t tabs IH]; intros acc.
  - exists acc. split; [reflexivity|]. intros tab.
    rewrite decide_False by apply not_elem_of_nil. reflexivity.
  - cbn [load_titles]. rewrite table_titles_run. cbn [obind].
    destruct (IH (<[t := titles_dict rows3 t]> acc)) as (vn & Hrun & Hlook).
    exists vn. split; [exact Hrun|]. intros tab. rewrite Hlook.
    destruct (decide (tab ∈ tabs)) as [Hin|Hout].
    + rewrite decide_True by (right; exact Hin). reflexivity.
    + destruct (decide (tab = t)) as [->|Hne].
      * rewrite decide_True by left. apply lookup_insert_eq.
      * rewrite decide_False by (rewrite elem_of_cons; tauto).
        apply lookup_insert_ne. congruence.
Qed.

End Titles.

Lemma exec_query_titles (db : gmap string frame) (name : string) (values : frame)
    (it iv ix : nat) :
  db !! name = Some values ->
  col_index "TableName" (columns values) = Some it ->
  col_index "varName" (columns values) = Some iv ->
  col_index "varTitle" (columns values) = Some ix ->
  exec_query db (Query ["TableName"; "varName"; "varTitle"]%string name [])
  = Ret (Catalog.titles_frame ((fun r => [cell it r; cell iv r; cell ix r]) <$> rows values)).
Proof.
  intros Hdb Ht Hv Hx. unfold exec_query. cbn [q_table q_where q_vars]. rewrite Hdb.
  cbn [eval_where obind]. rewrite decide_False by discriminate.
  unfold project, select_rows. cbn [columns rows col_indices].
  rewrite Ht, Hv, Hx. cbn [obind]. rewrite filter_all. reflexivity.
Qed.

(** X15: on a connected handler whose variable table has the three
    columns, [get_varnames] returns a dictionary per table name in which
    every title found for a variable is a title some row of the table
    gives to that variable of that table, and every variable that a row
    lists for a table has a title. *)
Theorem get_varnames_titles_from_rows (self : handler) (name : string)
    (db : gmap string frame) (values : frame) (it iv ix : nat) (w : world) :
  conn self = Some db ->
  db !! name = Some values ->
  col_index "TableName" (columns values) = Some it ->
  col_index "varName" (columns values) = Some iv ->
  col_index "varTitle" (columns values) = Some ix ->
  ∃ vn,
    Catalog.get_varnames self name w
    = (Ret (Some vn),
       World (queries w ++ [Query ["TableName"; "varName"; "varTitle"]%string name []])
         (stdout w) (heap w))
    ∧ forall tab v,
        (forall t, Catalog.lookup2 vn tab v = Some t ->
                   ∃ r, r ∈ rows values ∧ cell it r = tab ∧ cell iv r = v
                        ∧ cell ix r = t)
        ∧ (forall r, r ∈ rows values -> cell it r = tab -> cell iv r = v ->
                     is_null tab = false ->
                     is_Some (Catalog.lookup2 vn tab v)).
Proof.
  intros Hconn Hdb Ht Hv Hx.
  set (rows3 := (fun r => [cell it r; cell iv r; cell ix r]) <$> rows values).
  destruct (load_titles_run rows3 (Catalog.uniq [] (cell 0 <$> rows3)) ∅)
    as (vn & Hload & Hlook).
  exists vn. split.
  - unfold Catalog.get_varnames, try_except, mbind, M_bind, read_sql_query, lift.
    rewrite Hconn, (exec_query_titles db name values it iv ix Hdb Ht Hv Hx).
    fold rows3.
    change (getcol (Catalog.titles_frame rows3) "TableName") with (Ret (cell 0 <$> rows3)).
    cbv iota beta. rewrite Hload. reflexivity.
  - intros tab v. unfold Catalog.lookup2. rewrite Hlook. split.
    + intros t Hfound.
      destruct (decide (tab ∈ Catalog.uniq [] (cell 0 <$> rows3))); [|discriminate].
      cbn [mbind option_bind] in Hfound. unfold Catalog.titles_dict in Hfound.
      rewrite pairs_dict_lookup in Hfound.
      destruct (Catalog.last_match _ _) as [x|] eqn:Hlast; [|discriminate].
      injection Hfound as <-.
      apply last_match_Some in Hlast as [Hin Hkey].
      apply bool_decide_eq_true in Hkey.
      apply (proj2 (dedup_spec _ [])) in Hin as [Hin _].
      apply list_elem_of_fmap in Hin as (r3 & -> & Hr3).
      apply list_elem_of_In, filter_In in Hr3 as [Hr3 Hq].
      apply andb_true_iff in Hq as [_ Hq]. apply bool_decide_eq_true in Hq.
      apply list_elem_of_In in Hr3. unfold rows3 in Hr3.
      apply list_elem_of_fmap in Hr3 as (r & -> & Hr).
      exists r. auto.
    + intros r Hr Htab Hvar Hnull.
      assert (Hr3 : [cell it r; cell iv r; cell ix r] ∈ rows3).
      { unfold rows3. apply list_elem_of_fmap. eauto. }
      rewrite decide_True.
      2: { apply uniq_elem. split; [|apply not_elem_of_nil].
           apply list_elem_of_fmap. exists [cell it r; cell iv r; cell ix r].
           split; [symmetry; exact Htab|exact Hr3]. }
      cbn [mbind option_bind]. unfold Catalog.titles_dict. rewrite pairs_dict_lookup.
      apply fmap_is_Some.
      apply (last_match_is_Some _ _ [cell iv r; cell ix r]).
      * apply (proj2 (dedup_spec _ [])). split; [|apply not_elem_of_nil].
        apply list_elem_of_fmap. exists [cell it r; cell iv r; cell ix r].
        split; [reflexivity|].
        apply list_elem_of_In, filter_In. split; [apply list_elem_of_In, Hr3|].
        rewrite Hnull. apply bool_decide_eq_true. exact Htab.
      * apply bool_decide_eq_true. exact Hvar.
Qed.

Lemma get_varnames_titles_from_rows_witness :
  ∃ vn,
    (Catalog.get_varnames MoreExamples.catalog "vartable19" Examples.fresh).1
    = Ret (Some vn)
    ∧ is_Some (Catalog.lookup2 vn (PStr "C2019_A") (PStr "CIPCODE")).
Proof.
  destruct (get_varnames_titles_from_rows MoreExamples.catalog "vartable19"
              {[ "valuesets19"%string := MoreExamples.valuesets;
                 "vartable19"%string := MoreExamples.vartable ]}
              MoreExamples.vartable 0 1 2 Examples.fresh
              eq_refl eq_refl eq_refl eq_refl eq_refl) as (vn & Hrun & Hlook).
  exists vn. rewrite Hrun. split; [reflexivity|].
  apply (proj2 (Hlook (PStr "C2019_A") (PStr "CIPCODE"))
           [PStr "C2019_A"; PStr "CIPCODE"; PStr "CIP Code"]);
    [left|reflexivity..].
Defined.

(** ** Counting schools without a filter, and a failed institution query *)

Section Schools.

Lemma exec_query_columns (db : gmap string frame) (q : query) (t : frame) :
  q_vars q ≠ ["*"%string] -> exec_query db q = Ret t -> columns t = q_vars q.
Proof.
  intros Hvars H. unfold exec_query in H.
  destruct (db !! q_table q) as [tab|]; [|discriminate].
  apply obind_ret_inv in H as (p & _ & H).
  rewrite decide_False in H by exact Hvars.
  unfold project in H.
  destruct (col_indices (q_vars q) (columns (select_rows p tab))); [|discriminate].
  injection H as <-. reflexivity.
Qed.

Lemma select_columns (self : handler) (name : string) (variables : list string)
    (where_ : list cond) (w w' : world) (t : frame) :
  variables ≠ ["*"%string] ->
  select self name variables where_ false false w = (Ret (Some t), w') ->
  columns t = variables.
Proof.
  intros Hvars H. unfold select, try_except in H.
  destruct (decide (name = EmptyString)); [discriminate|].
  unfold mbind, M_bind, read_sql_query in H.
  destruct (conn self) as [db|]; [|discriminate].
  destruct (exec_query db _) as [f|e] eqn:Hq; [|discriminate].
  injection H as <- _.
  exact (exec_query_columns db (Query variables name where_) f Hvars Hq).
Qed.

(** X16: without a geography filter and without [keep_geography],
    [schools] never raises.  It sends the award query for the first major
    and the given ids; when that query gives a table it returns the
    number of its rows, and when the query fails it prints the error of
    reading a column of nothing and returns nothing. *)
Theorem schools_without_filter (self : handler) (unitid : list pyval) (cg : bool)
    (w : world) :
  ∃ found w1,
    select self "C2019_A" ["UNITID"; "CIPCODE"; "CTOTALT"]%string
      (CEq "MAJORNUM" "1"
       :: (if decide (0 < length unitid)%nat then [CIn "UNITID" (str <$> unitid)] else []))
      false false w
    = (Ret found, w1)
    ∧ schools self None None None unitid None cg w
      = match found with
        | Some t => (Ret (OInt (Z.of_nat (len t))), w1)
        | None =>
            (Ret ONone,
             World (queries w1) (stdout w1 ++ ["'NoneType' object is not subscriptable"%string])
               (heap w1))
        end.
Proof.
  destruct (select_returns self "C2019_A" ["UNITID"; "CIPCODE"; "CTOTALT"]%string
              (CEq "MAJORNUM" "1"
               :: (if decide (0 < length unitid)%nat
                   then [CIn "UNITID" (str <$> unitid)] else []))
              false false w) as (found & w1 & Hsel & _).
  exists found, w1. split; [exact Hsel|].
  unfold schools, school_query, school_query_rows.
  change (how_variables "total") with (Some ["CTOTALT"%string]). cbv iota beta.
  change (["UNITID"; "CIPCODE"]%string ++ ["CTOTALT"%string])
    with ["UNITID"; "CIPCODE"; "CTOTALT"]%string.
  change (str (PInt 1)) with "1"%string.
  rewrite (bind_run _ _ _ _ _ (bind_run _ _ _ _ _ Hsel)).
  destruct found as [t|].
  - apply select_columns in Hsel; [|discriminate].
    unfold try_except, mbind, M_bind, lift, of_table, obj_col, getcol.
    rewrite Hsel. cbn [col_index]. rewrite decide_True by reflexivity.
    unfold mret, M_ret. rewrite length_fmap. reflexivity.
  - reflexivity.
Qed.

(** X17: when the query for the institutions fails, a call of
    [school_query] with a geography filter does not return nothing: it
    raises a [TypeError], from the length taken of the missing table or,
    with [clean_geography], from reading a column of it. *)
Theorem school_query_failed_resolution (self : handler) sf cf z lvl cipcode majornum
    unitid how rn lb keep_geography (cg : bool) (w w1 : world) :
  (sf, cf, z) ≠ (None, None, None) ->
  select self "HD2019" ["UNITID"; "FIPS"; "STABBR"; "COUNTYCD"; "COUNTYNM"; "ZIP"]%string
    (geo_where "FIPS" sf ++ geo_where "COUNTYCD" cf ++ geo_where "ZIP" z) false false w
  = (Ret None, w1) ->
  school_query self sf cf z lvl cipcode majornum unitid how rn lb keep_geography cg w
  = (Raise (TypeError (if cg then "'NoneType' object is not subscriptable"
                       else "object of type 'NoneType' has no len()")), w1).
Proof.
  intros Hfilter Hsel.
  assert (Hres : get_unitid self sf cf z cg w
                 = if cg
                   then (Raise (TypeError "'NoneType' object is not subscriptable"), w1)
                   else (Ret ONone, w1)).
  { unfold get_unitid.
    destruct sf, cf, z; try (exfalso; apply Hfilter; reflexivity);
      rewrite (bind_run _ _ _ _ _ Hsel); destruct cg; reflexivity. }
  unfold school_query.
  destruct sf, cf, z; try (exfalso; apply Hfilter; reflexivity);
    destruct cg;
    first [ rewrite (bind_raise _ _ _ _ _ Hres); reflexivity
          | rewrite (bind_run _ _ _ _ _ Hres); reflexivity ].
Qed.

Lemma school_query_failed_resolution_witness :
  school_query (Handler None ∅ None) (Some (One 1)) None None (LInt 6) None 1 [] "total"
    true false None false Examples.fresh
  = (Raise (TypeError "object of type 'NoneType' has no len()"),
     World [] ["'NoneType' object has no attribute 'cursor'"%string] ∅).
Proof.
  apply (school_query_failed_resolution (Handler None ∅ None) (Some (One 1)) None None).
  - discriminate.
  - reflexivity.
Defined.

End Schools.

(** ** Labels without a dictionary for the codes *)

Section Labelling.

Lemma add_label_needs_dictionary (self : handler) (df : frame) :
  metadata self !! "CIPCODE"%string = None ->
  ∃ e, add_label self df = Raise e.
Proof.
  intros Hmeta. unfold add_label.
  destruct (getcol df "CIPCODE") as [codes|e]; simpl; [|eauto].
  rewrite Hmeta. eauto.
Qed.

(** X18: with [label] set on a handler whose decode dictionary has no
    entry for [CIPCODE], neither [awards] nor [programs] ever returns:
    whatever the other arguments, the call ends in an exception. *)
Theorem label_needs_code_dictionary (self : handler) sf cf z lvl cipcode majornum unitid
    how rn keep_geography cg (w : world) :
  metadata self !! "CIPCODE"%string = None ->
  (∃ e w', awards self sf cf z lvl cipcode majornum unitid how rn true keep_geography cg w
           = (Raise e, w'))
  ∧ (∃ e w', programs self sf cf z lvl cipcode unitid rn true keep_geography cg w
             = (Raise e, w')).
Proof.
  intros Hmeta. split.
  - destruct (awards self sf cf z lvl cipcode majornum unitid how rn true
                keep_geography cg w) as [[r|e] w'] eqn:H; [exfalso|eauto].
    unfold awards in H. apply bind_ret_inv in H as (agg & w1 & Hagg & _).
    unfold awards_grouped in Hagg.
    apply bind_ret_inv in Hagg as (a0 & w2 & _ & Hagg).
    apply bind_ret_inv in Hagg as (a1 & w3 & _ & Hagg).
    apply bind_ret_inv in Hagg as (a2 & w4 & _ & Hagg).
    apply lift_ret_inv in Hagg as [Hlab _].
    destruct (add_label_needs_dictionary self a2 Hmeta) as [e He]. congruence.
  - destruct (programs self sf cf z lvl cipcode unitid rn true keep_geography cg w)
      as [[r|e] w'] eqn:H; [exfalso|eauto].
    unfold programs in H. apply bind_ret_inv in H as (agg & w1 & Hagg & _).
    unfold programs_grouped in Hagg.
    apply bind_ret_inv in Hagg as (a0 & w2 & _ & Hagg).
    apply bind_ret_inv in Hagg as (a1 & w3 & _ & Hagg).
    apply lift_ret_inv in Hagg as [Hlab _].
    destruct (add_label_needs_dictionary self
                (Frame.rename {[ "UNITID"%string := "PROG_COUNT"%string ]} a1) Hmeta)
      as [e He].
    congruence.
Qed.

Lemma label_needs_code_dictionary_witness :
  (programs (Handler (Some Examples.database) ∅ None) None None None (LInt 6) None []
     true true None false Examples.fresh).1
  = Raise (KeyError "CIPCODE").
Proof.
  destruct (proj2 (label_needs_code_dictionary (Handler (Some Examples.database) ∅ None)
                     None None None (LInt 6) None 1 [] "total" true None false
                     Examples.fresh (lookup_empty _))) as (e & w' & Hrun).
  rewrite Hrun. vm_compute in Hrun. injection Hrun as <- _. reflexivity.
Defined.

End Labelling.

(** ** Decoding the geography of the resolved institutions *)

Section Geography.

Lemma col_indices_length (cs cols : list string) (ix : list nat) :
  col_indices cs cols = Ret ix -> length ix = length cs.
Proof.
  revert ix. induction cs as [|c cs IH]; intros ix H; simpl in H.
  - injection H as <-. reflexivity.
  - destruct (col_index c cols); [|discriminate].
    destruct (col_indices cs cols) as [ix'|]; [|discriminate].
    injection H as <-. simpl. f_equal. apply IH. reflexivity.
Qed.

Lemma exec_query_row_lengths (db : gmap string frame) (q : query) (t : frame) :
  q_vars q ≠ ["*"%string] -> exec_query db q = Ret t ->
  Forall (fun r => length r = length (q_vars q)) (rows t).
Proof.
  intros Hvars H. unfold exec_query in H.
  destruct (db !! q_table q) as [tab|]; [|discriminate].
  apply obind_ret_inv in H as (p & _ & H).
  rewrite decide_False in H by exact Hvars.
  unfold project in H.
  destruct (col_indices (q_vars q) (columns (select_rows p tab))) as [ix|] eqn:Hix;
    [|discriminate].
  injection H as <-. cbn [rows obind].
  apply Forall_fmap, Forall_forall. intros r _. cbn.
  rewrite length_fmap. exact (col_indices_length _ _ _ Hix).
Qed.

Lemma select_row_lengths (self : handler) (name : string) (variables : list string)
    (where_ : list cond) (w w' : world) (t : frame) :
  variables ≠ ["*"%string] ->
  select self name variables where_ false false w = (Ret (Some t), w') ->
  Forall (fun r => length r = length variables) (rows t).
Proof.
  intros Hvars H. unfold select, try_except in H.
  destruct (decide (name = EmptyString)); [discriminate|].
  unfold mbind, M_bind, read_sql_query in H.
  destruct (conn self) as [db|]; [|discriminate].
  destruct (exec_query db _) as [f|e] eqn:Hq; [|discriminate].
  injection H as <- _.
  exact (exec_query_row_lengths db (Query variables name where_) f Hvars Hq).
Qed.

Lemma set_cell_other (i j : nat) (v : pyval) (r : list pyval) :
  (i < length r)%nat -> i ≠ j -> cell j (set_cell i v r) = cell j r.
Proof.
  intros Hi Hij. unfold set_cell, cell. rewrite decide_True by exact Hi.
  rewrite list_lookup_insert_ne by exact Hij. reflexivity.
Qed.

Lemma set_cell_same (i : nat) (v : pyval) (r : list pyval) :
  (i < length r)%nat -> cell i (set_cell i v r) = v.
Proof.
  intros Hi. unfold set_cell, cell. rewrite decide_True by exact Hi.
  rewrite list_lookup_insert_eq by exact Hi. reflexivity.
Qed.

Lemma set_cell_length (i : nat) (v : pyval) (r : list pyval) :
  (i < length r)%nat -> length (set_cell i v r) = length r.
Proof.
  intros Hi. unfold set_cell. rewrite decide_True by exact Hi. apply length_insert.
Qed.

Lemma setcol_other (i j n : nat) (cells : list pyval) (rs : list (list pyval)) :
  (i < n)%nat -> i ≠ j -> length cells = length rs ->
  Forall (fun r => length r = n) rs ->
  cell j <$> zip_with (set_cell i) cells rs = cell j <$> rs.
Proof.
  intros Hi Hij. revert cells. induction rs as [|r rs IH]; intros cells Hlen Hall.
  - destruct cells; reflexivity.
  - destruct cells as [|c cells]; [discriminate|].
    apply Forall_cons in Hall as [Hr Hall]. cbn [zip_with]. rewrite !fmap_cons.
    rewrite set_cell_other by (rewrite ?Hr; assumption).
    f_equal. apply IH; [|exact Hall]. simpl in Hlen. congruence.
Qed.

Lemma setcol_same (i n : nat) (cells : list pyval) (rs : list (list pyval)) :
  (i < n)%nat -> length cells = length rs ->
  Forall (fun r => length r = n) rs ->
  cell i <$> zip_with (set_cell i) cells rs = cells.
Proof.
  intros Hi. revert cells. induction rs as [|r rs IH]; intros cells Hlen Hall.
  - destruct cells; [reflexivity|discriminate].
  - destruct cells as [|c cells]; [discriminate|].
    apply Forall_cons in Hall as [Hr Hall]. cbn [zip_with]. rewrite !fmap_cons.
    rewrite set_cell_same by (rewrite Hr; assumption).
    f_equal. apply IH; [|exact Hall]. simpl in Hlen. congruence.
Qed.

Lemma setcol_row_lengths (i n : nat) (cells : list pyval) (rs : list (list pyval)) :
  (i < n)%nat -> Forall (fun r => length r = n) rs ->
  Forall (fun r => length r = n) (zip_with (set_cell i) cells rs).
Proof.
  intros Hi Hall. revert cells. induction Hall as [|r rs Hr Hall IH]; intros cells.
  - destruct cells; constructor.
  - destruct cells as [|c cells]; [constructor|].
    cbn [zip_with]. constructor; [|apply IH].
    rewrite set_cell_length by (rewrite Hr; assumption). exact Hr.
Qed.

Lemma county_names_length (names abbrs cells : list pyval) :
  length names = length abbrs -> county_names names abbrs = Ret cells ->
  length cells = length names.
Proof.
  revert abbrs cells. induction names as [|n ns IH]; intros abbrs cells Hlen H.
  - destruct abbrs; injection H as <-; reflexivity.
  - destruct abbrs as [|a abs]; [discriminate|]. simpl in H.
    apply obind_ret_inv in H as (na & _ & H).
    apply obind_ret_inv in H as (v & _ & H).
    apply obind_ret_inv in H as (rest & Hrest & H).
    injection H as <-. simpl. f_equal. apply (IH abs); [|exact Hrest].
    simpl in Hlen. congruence.
Qed.

(** X19: on the table that a geography filter resolves, [clean_geography]
    changes two columns only.  Whenever the county names and state
    abbreviations of the table can be concatenated, the call with
    [clean_geography] returns a table with the same column labels and the
    same [UNITID], [STABBR], [COUNTYNM] and [ZIP] columns as the call
    without it; its [FIPS] column is the [STABBR] column and its
    [COUNTYCD] column holds the concatenated names. *)
Theorem get_unitid_clean_geography (self : handler) (sf cf z : option geo)
    (w w1 : world) (t : frame) (names abbrs cells : list pyval) :
  get_unitid self sf cf z false w = (Ret (OFrame t), w1) ->
  getcol t "COUNTYNM" = Ret names ->
  getcol t "STABBR" = Ret abbrs ->
  county_names names abbrs = Ret cells ->
  ∃ t', get_unitid self sf cf z true w = (Ret (OFrame t'), w1)
        ∧ columns t' = columns t
        ∧ getcol t' "UNITID" = getcol t "UNITID"
        ∧ getcol t' "FIPS" = Ret abbrs
        ∧ getcol t' "STABBR" = Ret abbrs
        ∧ getcol t' "COUNTYCD" = Ret cells
        ∧ getcol t' "COUNTYNM" = Ret names
        ∧ getcol t' "ZIP" = getcol t "ZIP".
Proof.
  intros Hplain Hnames Habbrs Hcells.
  assert (Hsel : (sf, cf, z) ≠ (None, None, None)
                 ∧ select self "HD2019"
                     ["UNITID"; "FIPS"; "STABBR"; "COUNTYCD"; "COUNTYNM"; "ZIP"]%string
                     (geo_where "FIPS" sf ++ geo_where "COUNTYCD" cf ++ geo_where "ZIP" z)
                     false false w
                   = (Ret (Some t), w1)).
  { unfold get_unitid in Hplain.
    destruct sf, cf, z; try discriminate;
      (split; [discriminate|]);
      apply bind_ret_inv in Hplain as ([u|] & w2 & Hs & Hr);
      try discriminate; injection Hr as <- <-; exact Hs. }
  destruct Hsel as [Hfilter Hsel].
  assert (Hvars : ["UNITID"; "FIPS"; "STABBR"; "COUNTYCD"; "COUNTYNM"; "ZIP"]%string
                  ≠ ["*"%string]) by discriminate.
  pose proof (select_columns _ _ _ _ _ _ _ Hvars Hsel) as Hcols.
  pose proof (select_row_lengths _ _ _ _ _ _ _ Hvars Hsel) as Hrows.
  destruct t as [cols rs]. cbn [columns rows] in Hcols, Hrows. subst cols.
  cbn [length] in Hrows.
  injection Hnames as <-. injection Habbrs as <-.
  cbn [rows] in Hcells.
  set (rs1 := zip_with (set_cell 1) (cell 2 <$> rs) rs).
  assert (Hrows1 : Forall (fun r => length r = 6%nat) rs1)
    by (apply setcol_row_lengths; [lia|exact Hrows]).
  assert (Hlen1 : length rs1 = length rs).
  { unfold rs1. rewrite length_zip_with_r_eq; [reflexivity|symmetry; apply length_fmap]. }
  assert (H14 : cell 4 <$> rs1 = cell 4 <$> rs)
    by (apply (setcol_other 1 4 6); [lia|lia|apply length_fmap|exact Hrows]).
  assert (H12 : cell 2 <$> rs1 = cell 2 <$> rs)
    by (apply (setcol_other 1 2 6); [lia|lia|apply length_fmap|exact Hrows]).
  assert (Hclen : length cells = length rs1).
  { rewrite (county_names_length (cell 4 <$> rs) (cell 2 <$> rs) cells);
      [|rewrite !length_fmap; reflexivity|exact Hcells].
    rewrite length_fmap. symmetry. exact Hlen1. }
  exists (Build ["UNITID"; "FIPS"; "STABBR"; "COUNTYCD"; "COUNTYNM"; "ZIP"]%string
            (zip_with (set_cell 3) cells rs1)).
  split.
  { unfold get_unitid.
    destruct sf, cf, z; try (exfalso; apply Hfilter; reflexivity);
      rewrite (bind_run _ _ _ _ _ Hsel);
      unfold lift, mbind, M_bind, decode_geography;
      change (getcol (Build ["UNITID"; "FIPS"; "STABBR"; "COUNTYCD"; "COUNTYNM"; "ZIP"]%string
                        rs) "STABBR") with (Ret (A := list pyval) (cell 2 <$> rs));
      cbn [obind]; cbv zeta;
      change (setcol (Build ["UNITID"; "FIPS"; "STABBR"; "COUNTYCD"; "COUNTYNM"; "ZIP"]%string
                        rs) "FIPS" (cell 2 <$> rs))
        with (Build ["UNITID"; "FIPS"; "STABBR"; "COUNTYCD"; "COUNTYNM"; "ZIP"]%string rs1);
      change (getcol (Build ["UNITID"; "FIPS"; "STABBR"; "COUNTYCD"; "COUNTYNM"; "ZIP"]%string
                        rs1) "COUNTYNM") with (Ret (A := list pyval) (cell 4 <$> rs1));
      change (getcol (Build ["UNITID"; "FIPS"; "STABBR"; "COUNTYCD"; "COUNTYNM"; "ZIP"]%string
                        rs1) "STABBR") with (Ret (A := list pyval) (cell 2 <$> rs1));
      cbn [obind]; rewrite H14, H12, Hcells; reflexivity. }
  split; [reflexivity|].
  change (getcol (Build ["UNITID"; "FIPS"; "STABBR"; "COUNTYCD"; "COUNTYNM"; "ZIP"]%string
                    (zip_with (set_cell 3) cells rs1)) "UNITID")
    with (Ret (A := list pyval) (cell 0 <$> zip_with (set_cell 3) cells rs1)).
  change (getcol (Build ["UNITID"; "FIPS"; "STABBR"; "COUNTYCD"; "COUNTYNM"; "ZIP"]%string
                    (zip_with (set_cell 3) cells rs1)) "FIPS")
    with (Ret (A := list pyval) (cell 1 <$> zip_with (set_cell 3) cells rs1)).
  change (getcol (Build ["UNITID"; "FIPS"; "STABBR"; "COUNTYCD"; "COUNTYNM"; "ZIP"]%string
                    (zip_with (set_cell 3) cells rs1)) "STABBR")
    with (Ret (A := list pyval) (cell 2 <$> zip_with (set_cell 3) cells rs1)).
  change (getcol (Build ["UNITID"; "FIPS"; "STABBR"; "COUNTYCD"; "COUNTYNM"; "ZIP"]%string
                    (zip_with (set_cell 3) cells rs1)) "COUNTYCD")
    with (Ret (A := list pyval) (cell 3 <$> zip_with (set_cell 3) cells rs1)).
  change (getcol (Build ["UNITID"; "FIPS"; "STABBR"; "COUNTYCD"; "COUNTYNM"; "ZIP"]%string
                    (zip_with (set_cell 3) cells rs1)) "COUNTYNM")
    with (Ret (A := list pyval) (cell 4 <$> zip_with (set_cell 3) cells rs1)).
  change (getcol (Build ["UNITID"; "FIPS"; "STABBR"; "COUNTYCD"; "COUNTYNM"; "ZIP"]%string
                    (zip_with (set_cell 3) cells rs1)) "ZIP")
    with (Ret (A := list pyval) (cell 5 <$> zip_with (set_cell 3) cells rs1)).
  change (getcol (Build ["UNITID"; "FIPS"; "STABBR"; "COUNTYCD"; "COUNTYNM"; "ZIP"]%string
                    rs) "UNITID") with (Ret (A := list pyval) (cell 0 <$> rs)).
  change (getcol (Build ["UNITID"; "FIPS"; "STABBR"; "COUNTYCD"; "COUNTYNM"; "ZIP"]%string
                    rs) "ZIP") with (Ret (A := list pyval) (cell 5 <$> rs)).
  rewrite (setcol_same 3 6 cells rs1) by (first [lia|assumption]).
  rewrite (setcol_other 3 0 6 cells rs1) by (first [lia|assumption]).
  rewrite (setcol_other 3 1 6 cells rs1) by (first [lia|assumption]).
  rewrite (setcol_other 3 2 6 cells rs1) by (first [lia|assumption]).
  rewrite (setcol_other 3 4 6 cells rs1) by (first [lia|assumption]).
  rewrite (setcol_other 3 5 6 cells rs1) by (first [lia|assumption]).
  rewrite H14, H12.
  unfold rs1.
  rewrite (setcol_same 1 6) by (first [lia|apply length_fmap|assumption]).
  rewrite (setcol_other 1 0 6) by (first [lia|apply length_fmap|assumption]).
  rewrite (setcol_other 1 5 6) by (first [lia|apply length_fmap|assumption]).
  repeat split.
Qed.

Lemma get_unitid_clean_geography_witness :
  ∃ t', get_unitid Examples.ipeds (Some (One 1)) None None true Examples.fresh
        = (Ret (OFrame t'),
           (get_unitid Examples.ipeds (Some (One 1)) None None false Examples.fresh).2)
        ∧ getcol t' "FIPS" = Ret [PStr "AL"]
        ∧ getcol t' "COUNTYCD" = Ret [PStr "Autauga County, AL"].
Proof.
  destruct (get_unitid_clean_geography Examples.ipeds (Some (One 1)) None None
              Examples.fresh _ _ [PStr "Autauga County"] [PStr "AL"]
              [PStr "Autauga County, AL"] eq_refl eq_refl eq_refl eq_refl)
    as (t' & Hrun & _ & _ & Hfips & _ & Hcounty & _).
  exists t'. split; [exact Hrun|]. split; assumption.
Defined.

End Geography.

(** ** The list of tables *)

Section Catalogue.

Import Catalog.

(** X20: [get_tables] never raises and touches neither the caller's
    lists nor, on success, the output.  Either it returns a table whose
    column labels are exactly [TableName] and [TableTitle], having sent
    one query, or it returns nothing and has printed one line. *)
Theorem get_tables_contained (self : handler) (name : string) (w : world) :
  ∃ r w', get_tables self name w = (Ret r, w')
          ∧ heap w' = heap w
          ∧ match r with
            | Some t =>
                columns t = ["TableName"; "TableTitle"]%string
                ∧ stdout w' = stdout w
                ∧ queries w'
                  = queries w ++ [Query ["TableName"; "TableTitle"]%string name []]
            | None => ∃ line, stdout w' = stdout w ++ [line]
            end.
Proof.
  unfold get_tables, try_except, mbind, M_bind, read_sql_query.
  destruct (conn self) as [db|].
  - destruct (exec_query db _) as [t|e] eqn:Hq.
    + eexists _, _. split; [reflexivity|]. split; [reflexivity|].
      split; [|split; reflexivity].
      apply (exec_query_columns db (Query ["TableName"; "TableTitle"]%string name []) t);
        [discriminate|exact Hq].
    + eexists _, _. split; [reflexivity|]. split; [reflexivity|]. eexists. reflexivity.
  - eexists _, _. split; [reflexivity|]. split; [reflexivity|]. eexists. reflexivity.
Qed.

(** X21: on a connected handler whose database has the named table with a
    [TableName] and a [TableTitle] column, [get_tables] returns one row
    per row of that table, in the stored order, holding the cells of
    these two columns, whatever other columns the table has. *)
Theorem get_tables_lists_every_row (self : handler) (name : string)
    (db : gmap string frame) (t : frame) (i j : nat) (w : world) :
  conn self = Some db ->
  db !! name = Some t ->
  col_index "TableName" (columns t) = Some i ->
  col_index "TableTitle" (columns t) = Some j ->
  get_tables self name w
  = (Ret (Some (Build ["TableName"; "TableTitle"]%string
                  ((fun r => [cell i r; cell j r]) <$> rows t))),
     World (queries w ++ [Query ["TableName"; "TableTitle"]%string name []])
       (stdout w) (heap w)).
Proof.
  intros Hconn Hdb Hi Hj.
  unfold get_tables, try_except, mbind, M_bind, read_sql_query. rewrite Hconn.
  unfold exec_query. cbn [q_table q_where q_vars]. rewrite Hdb.
  cbn [eval_where obind]. rewrite decide_False by discriminate.
  unfold project, select_rows. cbn [columns rows col_indices].
  rewrite Hi, Hj. cbn [obind]. rewrite filter_all. reflexivity.
Qed.

Lemma get_tables_lists_every_row_witness :
  (get_tables MoreExamples.listing "tables19" Examples.fresh).1
  = Ret (Some (Build ["TableName"; "TableTitle"]%string
                 [[PStr "HD2019"; PStr "Institutional Characteristics"];
                  [PStr "C2019_A"; PStr "Completions"]])).
Proof.
  rewrite (get_tables_lists_every_row MoreExamples.listing "tables19"
             {[ "tables19"%string := MoreExamples.tables19 ]} MoreExamples.tables19
             0 2 Examples.fresh eq_refl eq_refl eq_refl eq_refl).
  reflexivity.
Defined.

End Catalogue.

(** ** What the release check leaves alone *)

Section ReleaseCheck.

Import ONET.

(** X22: whatever the release page holds, readable or not, a call of
    [get_new_database] asks for that page and for nothing else, and
    leaves the archives, the unpacked files and the recorded current
    directory, version and path as they were. *)
Theorem get_new_database_keeps_local_state (net : remote) (w : world) :
  let w' := (get_new_database net w).2 in
  requested w' = requested w ++ ["https://www.onetcenter.org/db_releases.html"%string]
  ∧ zips w' = zips w
  ∧ extracted w' = extracted w
  ∧ current w' = current w
  ∧ version w' = version w
  ∧ current_path w' = current_path w.
Proof.
  unfold get_new_database, mbind, M_bind, get_listing, lift.
  destruct (listing net) as [p|e]; cbn [fst snd]; [|repeat split].
  destruct (heading_version p) as [v|e]; cbn [fst snd]; [|repeat split].
  cbn [version].
  destruct (Qle_bool v (version w)); [repeat split|].
  destruct (archive_link p) as [href|e]; repeat split.
Qed.

End ReleaseCheck.
